(** * disparrange: display setup tool driving xrandr

    A shallow embedding of [disparrange.py] and the properties of its
    profile-to-command translation.

    Conventions of the embedding.
    - Python [str] values are [string]s; a character is a code point
      below 256.
    - Python [int] values read from the JSON file are [Z].
    - Printing, opening the setups file and running a subprocess are
      recorded as events of a trace that every effectful function
      threads; exceptions are the [Raise] results of the same monad.
    - A Python [dict] is an association list in insertion order. *)

From Stdlib Require Import ZArith String Ascii List Bool Arith Lia DecimalString.
From Stdlib Require Import DecimalPos DecimalZ Permutation.
Import ListNotations.

Open Scope string_scope.
Open Scope list_scope.

(** ** Python builtins used by the program *)

Module Py.

(** The line feed character. *)
Definition LF : ascii := ascii_of_nat 10.
Definition CR : ascii := ascii_of_nat 13.
Definition nl : string := String LF EmptyString.

(** [str.isspace] on one character (code points below 256). *)
Definition isspace (c : ascii) : bool :=
  let n := nat_of_ascii c in
  (((9 <=? n) && (n <=? 13)) || ((28 <=? n) && (n <=? 32))
   || (n =? 133) || (n =? 160))%nat.

(** The line boundaries of [str.splitlines]. *)
Definition islinebreak (c : ascii) : bool :=
  let n := nat_of_ascii c in
  (((10 <=? n) && (n <=? 13)) || ((28 <=? n) && (n <=? 30)) || (n =? 133))%nat.

Definition isempty (s : string) : bool :=
  match s with EmptyString => true | String _ _ => false end.

Definition snoc (s : string) (c : ascii) : string := s ++ String c EmptyString.

(** [str.startswith(p)]. *)
Definition startswith (s p : string) : bool := String.prefix p s.

(** [str.split()] with no separator: maximal runs of non-space characters. *)
Fixpoint split_from (cur s : string) : list string :=
  match s with
  | EmptyString => if isempty cur then [] else [cur]
  | String c r =>
      if isspace c
      then (if isempty cur then split_from EmptyString r
            else cur :: split_from EmptyString r)
      else split_from (snoc cur c) r
  end.

Definition split (s : string) : list string := split_from EmptyString s.

(** [str.split(sep)] for a one-character separator: empty pieces are kept. *)
Fixpoint split_on_from (sep : ascii) (cur s : string) : list string :=
  match s with
  | EmptyString => [cur]
  | String c r =>
      if Ascii.eqb c sep then cur :: split_on_from sep EmptyString r
      else split_on_from sep (snoc cur c) r
  end.

Definition split_on (sep : ascii) (s : string) : list string :=
  split_on_from sep EmptyString s.

(** [str.splitlines()]: a carriage return directly followed by a line feed
    is one boundary; no empty line is produced after a final boundary. *)
Fixpoint splitlines_from (after_cr : bool) (cur s : string) : list string :=
  match s with
  | EmptyString => if isempty cur then [] else [cur]
  | String c r =>
      if after_cr && Ascii.eqb c LF then splitlines_from false cur r
      else if islinebreak c
      then cur :: splitlines_from (Ascii.eqb c CR) EmptyString r
      else splitlines_from false (snoc cur c) r
  end.

Definition splitlines (s : string) : list string :=
  splitlines_from false EmptyString s.

(** [sep.join(l)]. *)
Definition join (sep : string) (l : list string) : string := String.concat sep l.

(** [str(n)] for an [int]. *)
Definition str_of_int (n : Z) : string := NilZero.string_of_int (Z.to_int n).

(** A [dict]: keys in the order of their first insertion; assigning to a
    key that is present replaces its value in place. *)
Section Dict.
Variables K V : Type.
Variable eqb : K -> K -> bool.

Definition dict : Type := list (K * V).

Fixpoint dict_get (d : dict) (k : K) : option V :=
  match d with
  | [] => None
  | (k', v) :: r => if eqb k k' then Some v else dict_get r k
  end.

Fixpoint dict_set (d : dict) (k : K) (v : V) : dict :=
  match d with
  | [] => [(k, v)]
  | (k', v') :: r =>
      if eqb k k' then (k', v) :: r else (k', v') :: dict_set r k v
  end.

Definition dict_keys (d : dict) : list K := map fst d.
Definition dict_values (d : dict) : list V := map snd d.

(** [k in d.keys()]. *)
Definition dict_contains (d : dict) (k : K) : bool :=
  existsb (eqb k) (dict_keys d).
End Dict.

Arguments dict_get {K V} eqb d k.
Arguments dict_set {K V} eqb d k v.
Arguments dict_keys {K V} d.
Arguments dict_values {K V} d.
Arguments dict_contains {K V} eqb d k.

End Py.

(** ** Exceptions, events and the monad of effectful functions *)

Inductive exn : Type :=
| IndexError
| AttributeError
| TypeError
| OSError.

Inductive result (A : Type) : Type :=
| Ok (a : A)
| Raise (e : exn).

Arguments Ok {A} a.
Arguments Raise {A} e.

Inductive event : Type :=
| EvOpen (path : string)          (* the setups file is opened and parsed *)
| EvStdout (text : string)        (* text written to standard output *)
| EvStderr (text : string)        (* text written to standard error *)
| EvRun (argv : list string).     (* subprocess.run(argv) *)

Definition trace := list event.

Definition M (A : Type) : Type := trace -> result A * trace.

Definition ret {A} (a : A) : M A := fun t => (Ok a, t).

Definition bind {A B} (m : M A) (f : A -> M B) : M B :=
  fun t => match m t with
           | (Ok a, t') => f a t'
           | (Raise e, t') => (Raise e, t')
           end.

Definition raise {A} (e : exn) : M A := fun t => (Raise e, t).

Definition emit (e : event) : M unit := fun t => (Ok tt, t ++ [e]).

Notation "x <- m ;; k" := (bind m (fun x => k))
  (at level 61, m at next level, right associativity).
Notation "m ;;; k" := (bind m (fun _ => k))
  (at level 61, right associativity).

(** [print(s)] and [print(s, file=sys.stderr)]: the text and a newline. *)
Definition stdout_line (s : string) : event := EvStdout (s ++ Py.nl).
Definition stderr_line (s : string) : event := EvStderr (s ++ Py.nl).

Definition print (s : string) : M unit := emit (stdout_line s).
Definition print_err (s : string) : M unit := emit (stderr_line s).

Definition is_run (e : event) : bool :=
  match e with EvRun _ => true | _ => false end.

(** ** Data model *)

(** [class OutputDevice]: [modes] holds what [add_mode] was given. *)
Record OutputDevice : Type := mkOutputDevice {
  name : string;
  is_connected : bool;
  modes : list (string * string)
}.

Definition add_mode (d : OutputDevice) (width height : string) : OutputDevice :=
  {| name := name d;
     is_connected := is_connected d;
     modes := modes d ++ [(width, height)] |}.

(** One entry of a setup in the JSON file, in the format that the module
    documents: [{"output": ..., "mode": [w, h], "pos": [x, y]}], where
    "output" is a string and "mode" and "pos", when present, are pairs of
    integers.  [output] is [None] when the field is missing or null, which
    is what [setup.get('output')] returns then; no display name equals it.
    An entry with a value of another type in one of the three fields is
    outside this format and has no counterpart here. *)
Record OutputSpec : Type := mkOutputSpec {
  output : option string;
  mode : option (Z * Z);
  pos : option (Z * Z)
}.

(** The parsed JSON file: setup name to entries, in file order. *)
Definition Setups : Type := list (string * list OutputSpec).

(** ** get_available_displays *)

Definition flush (displays : list OutputDevice) (new_display : option OutputDevice)
  : list OutputDevice :=
  match new_display with
  | Some d => displays ++ [d]
  | None => displays
  end.

(** The loop over [proc.stdout.splitlines()], with its two local variables. *)
Fixpoint parse_lines (lines : list string) (displays : list OutputDevice)
    (new_display : option OutputDevice) : result (list OutputDevice) :=
  match lines with
  | [] => Ok (flush displays new_display)
  | line :: rest =>
      if Py.startswith line "Screen" then parse_lines rest displays new_display
      else if negb (Py.startswith line " ") then
        let displays := flush displays new_display in
        let display_props := Py.split line in
        match nth_error display_props 0 with
        | None => Raise IndexError
        | Some nm =>
            match nth_error display_props 1 with
            | None => Raise IndexError
            | Some st =>
                parse_lines rest displays
                  (Some (mkOutputDevice nm (String.eqb st "connected") []))
            end
        end
      else
        let mode_props := Py.split line in
        match nth_error mode_props 0 with
        | None => Raise IndexError
        | Some tok =>
            let resolution := Py.split_on "x" tok in
            match new_display with
            | None => Raise AttributeError
            | Some d =>
                match resolution with
                | [w; h] => parse_lines rest displays (Some (add_mode d w h))
                | _ => Raise TypeError
                end
            end
        end
  end.

(** The parsing of the query's standard output. *)
Definition parse_displays (stdout : string) : result (list OutputDevice) :=
  parse_lines (Py.splitlines stdout) [] None.

(** ** The argument groups

    [arg_groups] is a [dict] whose keys are the objects the program uses
    as keys: [str] objects (line 120) and [OutputDevice] objects
    (line 128).  [OutputDevice] defines neither [__eq__] nor [__hash__],
    so such a key is equal to itself only; the prober creates one object
    per header line and appends it once, so the object is identified by
    its position in [available_displays].  A [str] never equals an
    [OutputDevice].  The position identifies a record within one probed
    list only: the records of two probed lists are different objects. *)

Inductive key : Type :=
| KName (s : string)
| KDevice (idx : nat).

Definition key_eqb (a b : key) : bool :=
  match a, b with
  | KName s, KName s' => String.eqb s s'
  | KDevice i, KDevice j => Nat.eqb i j
  | _, _ => false
  end.

Definition ArgGroups : Type := Py.dict key (list string).

(** The double quote character, as a string. *)
Definition DQ : string := String (ascii_of_nat 34) EmptyString.

(** [str(output)], as the f-strings and the argument list use it. *)
Definition str_output (o : option string) : string :=
  match o with Some s => s | None => "None" end.

(** [disp.name == output]. *)
Definition name_is (o : option string) (disp : OutputDevice) : bool :=
  match o with Some s => String.eqb (name disp) s | None => false end.

Definition fmt_pair (p : Z * Z) : string :=
  Py.str_of_int (fst p) ++ "x" ++ Py.str_of_int (snd p).

(** Lines 114-119: the argument group of one entry. *)
Definition display_args (o : option string) (m : option (Z * Z)) (p : Z * Z)
  : list string :=
  ["--output"; str_output o; "--pos"; fmt_pair p]
  ++ match m with
     | Some wh => ["--mode"; fmt_pair wh]
     | None => ["--auto"]
     end.

Definition entry_args (setup : OutputSpec) : list string :=
  display_args (output setup) (mode setup)
    (match pos setup with Some p => p | None => (0, 0)%Z end).

(** Lines 103-120: the loop over the entries of the setup.  [inl c] is
    the early [return c]. *)
Fixpoint setup_loop (available_displays : list OutputDevice)
    (display_setup : list OutputSpec) (arg_groups : ArgGroups)
  : M (Z + ArgGroups) :=
  match display_setup with
  | [] => ret (inr arg_groups)
  | setup :: rest =>
      let matching_displays := filter (name_is (output setup)) available_displays in
      match matching_displays with
      | [] =>
          print_err ("Output " ++ DQ ++ str_output (output setup) ++ DQ
                     ++ " does not exist") ;;;
          ret (inl 2%Z)
      | d0 :: _ =>
          (if negb (is_connected d0)
           then print_err ("warning: " ++ str_output (output setup) ++ " is not connected")
           else ret tt) ;;;
          setup_loop available_displays rest
            (Py.dict_set key_eqb arg_groups
               (KName (str_output (output setup))) (entry_args setup))
      end
  end.

(** Lines 126-128: the loop over the probed displays; [idx] is the
    position of [display] in [available_displays]. *)
Fixpoint off_loop (idx : nat) (displays : list OutputDevice)
    (arg_groups : ArgGroups) : ArgGroups :=
  match displays with
  | [] => arg_groups
  | display :: rest =>
      off_loop (S idx) rest
        (if negb (Py.dict_contains key_eqb arg_groups (KName (name display)))
         then Py.dict_set key_eqb arg_groups (KDevice idx)
                ["--output"; name display; "--off"]
         else arg_groups)
  end.

(** Lines 102-128: the command builder. *)
Definition build_arg_groups (available_displays : list OutputDevice)
    (display_setup : list OutputSpec) : M (Z + ArgGroups) :=
  r <- setup_loop available_displays display_setup [] ;;
  match r with
  | inl code => ret (inl code)
  | inr arg_groups =>
      if Nat.eqb (length arg_groups) 0
      then print_err "No connected displays were configured - aborting" ;;;
           ret (inl 3%Z)
      else ret (inr (off_loop 0 available_displays arg_groups))
  end.

(** Lines 130-135: the command line. *)
Definition xrandr_args (arg_groups : ArgGroups) (dry_run : bool) : list string :=
  (["xrandr"] ++ concat (Py.dict_values arg_groups))
  ++ (if dry_run then ["--dryrun"] else []).

(** ** The program *)

Record CompletedProcess : Type := mkCompletedProcess {
  args : list string;
  returncode : Z;
  stdout : option string
}.

(** What [set_display_setup] returns: an [int] or the object that
    [subprocess.run] returned. *)
Inductive retval : Type :=
| RetCode (code : Z)
| RetProcess (proc : CompletedProcess).

Record Namespace : Type := mkNamespace {
  ns_setup : option string;
  ns_jsonfile : string;
  ns_dry_run : bool;
  ns_list_setups : bool
}.

Section Program.

(** The file system: what [json.load] gives for a file name, or the
    exception raised by opening or decoding it. *)
Variable load_json : string -> result Setups.

(** The operating system: exit status and standard output, decoded to
    text, of a process started with the given command line after the
    given history, or [None] when it cannot be launched.  An output that
    cannot be decoded has no counterpart here. *)
Variable run_process : trace -> list string -> option (Z * string).

Definition load_display_setups (filename : string) : M Setups :=
  emit (EvOpen filename) ;;;
  match load_json filename with
  | Ok setups => ret setups
  | Raise e => raise e
  end.

(** [subprocess.run(argv)]; [capture] is [stdout=subprocess.PIPE], without
    which the [stdout] of the result is [None]. *)
Definition subprocess_run (argv : list string) (capture : bool)
  : M CompletedProcess :=
  fun t =>
    match run_process t argv with
    | Some (rc, out) =>
        (Ok (mkCompletedProcess argv rc (if capture then Some out else None)),
         t ++ [EvRun argv])
    | None => (Raise OSError, t ++ [EvRun argv])
    end.

Definition get_available_displays : M (list OutputDevice) :=
  proc <- subprocess_run ["xrandr"] true ;;
  match stdout proc with
  | None => raise AttributeError
  | Some text =>
      match parse_displays text with
      | Ok displays => ret displays
      | Raise e => raise e
      end
  end.

Definition list_display_setups (setups_file : string) : M unit :=
  display_setups <- load_display_setups setups_file ;;
  print ("The following setups are defined in " ++ setups_file ++ ":") ;;;
  print (Py.join Py.nl (Py.dict_keys display_setups)).

Definition set_display_setup (setup_name setups_file : string) (dry_run : bool)
  : M retval :=
  display_setups <- load_display_setups setups_file ;;
  match Py.dict_get String.eqb display_setups setup_name with
  | None =>
      print_err ("Invalid display setup name: " ++ setup_name) ;;;
      ret (RetCode 1)
  | Some display_setup =>
      print ("Activating display setup " ++ setup_name) ;;;
      available_displays <- get_available_displays ;;
      r <- build_arg_groups available_displays display_setup ;;
      match r with
      | inl code => ret (RetCode code)
      | inr arg_groups =>
          let argv := xrandr_args arg_groups dry_run in
          (if dry_run then print ("command: " ++ Py.join " " argv) else ret tt) ;;;
          proc <- subprocess_run argv false ;;
          ret (RetProcess proc)
      end
  end.

(** Lines 152-156, after [parse_args]. *)
Definition main (ns : Namespace) : M unit :=
  match ns_setup ns with
  | None => list_display_setups (ns_jsonfile ns)
  | Some setup =>
      set_display_setup setup (ns_jsonfile ns) (ns_dry_run ns) ;;;
      ret tt
  end.

End Program.

(** The exit status of the interpreter: 0 when the script runs to its
    end, 1 when an exception is not caught. *)
Definition exit_status (r : result unit) : Z :=
  match r with
  | Ok _ => 0
  | Raise _ => 1
  end.

(** ** The statements of the specification *)

(** The output names of a setup, in the order of its entries. *)
Definition setup_names (display_setup : list OutputSpec) : list string :=
  map (fun s => str_output (output s)) display_setup.

(** Each name once, at the place of its first occurrence. *)
Definition first_occurrences (l : list string) : list string :=
  rev (nodup string_dec (rev l)).

(** The last entry of the setup for an output name. *)
Definition last_entry (n : string) (display_setup : list OutputSpec)
  : option OutputSpec :=
  find (fun s => String.eqb n (str_output (output s))) (rev display_setup).

Definition group_of (display_setup : list OutputSpec) (n : string) : list string :=
  match last_entry n display_setup with
  | Some s => entry_args s
  | None => []
  end.

(** Activation groups: one per output name, in profile order, with the
    content of the last entry for that name. *)
Definition activation_groups (display_setup : list OutputSpec)
  : list (list string) :=
  map (group_of display_setup) (first_occurrences (setup_names display_setup)).

Definition off_args (d : OutputDevice) : list string :=
  ["--output"; name d; "--off"].

Definition mentioned (display_setup : list OutputSpec) (d : OutputDevice) : bool :=
  existsb (String.eqb (name d)) (setup_names display_setup).

(** Off groups: one per probed output that the setup does not name, in
    probe order. *)
Definition off_groups (available_displays : list OutputDevice)
    (display_setup : list OutputSpec) : list (list string) :=
  map off_args (filter (fun d => negb (mentioned display_setup d)) available_displays).

(** The positions, counted from [idx], of the displays that satisfy [p]. *)
Fixpoint positions_from (p : OutputDevice -> bool) (idx : nat)
    (displays : list OutputDevice) : list nat :=
  match displays with
  | [] => []
  | d :: rest =>
      if p d then idx :: positions_from p (S idx) rest
      else positions_from p (S idx) rest
  end.

(** The two readings of "the line starts with whitespace". *)
Definition starts_with_space (line : string) : bool := Py.startswith line " ".

Definition starts_with_whitespace (line : string) : bool :=
  match line with
  | String c _ => Py.isspace c
  | EmptyString => false
  end.

Section QueryFormat.
Variable indented : string -> bool.

Definition is_screen (line : string) : bool := Py.startswith line "Screen".

Definition is_header (line : string) : bool :=
  negb (is_screen line) && negb (indented line).

Definition is_mode_line (line : string) : bool :=
  negb (is_screen line) && indented line.

(** Every header line has at least two tokens, and every indented line
    comes after a header line. *)
Definition query_precondition (lines : list string) : Prop :=
  (forall line, In line lines -> is_header line = true ->
     2 <= length (Py.split line)) /\
  (forall before line after, lines = before ++ line :: after ->
     is_mode_line line = true ->
     exists h, In h before /\ is_header h = true).
End QueryFormat.

(** A header line and the record it starts. *)
Definition starts_record (line : string) (d : OutputDevice) : Prop :=
  is_header starts_with_space line = true /\
  exists st more, Py.split line = name d :: st :: more /\
                  is_connected d = String.eqb st "connected".

(** An indented line and the pair it contributes: the two pieces of its
    first token around the one ['x'] of that token. *)
Definition gives_mode (line : string) (m : string * string) : Prop :=
  is_mode_line starts_with_space line = true /\
  exists tok more, Py.split line = tok :: more /\
                   Py.split_on "x" tok = [fst m; snd m].

(** A header line with the indented lines that follow it, and the record
    they make. *)
Definition block_record (b : string * list string) (d : OutputDevice) : Prop :=
  starts_record (fst b) d /\ Forall2 gives_mode (snd b) (modes d).

Definition is_digit (c : ascii) : bool :=
  let n := nat_of_ascii c in ((48 <=? n) && (n <=? 57))%nat.

Fixpoint all_chars (p : ascii -> bool) (s : string) : bool :=
  match s with
  | EmptyString => true
  | String c r => p c && all_chars p r
  end.

(** The text is the decimal numeral of a positive integer. *)
Definition denotes_positive_int (s : string) : bool :=
  negb (Py.isempty s) && all_chars is_digit s
  && negb (all_chars (Ascii.eqb "0") s).

Definition positive_int_modes (d : OutputDevice) : bool :=
  forallb (fun m => denotes_positive_int (fst m) && denotes_positive_int (snd m))
    (modes d).

(** ** Notions used by the statements and the proofs *)

(** [m] returns [r] and appends the events [out], whatever happened
    before. *)
Definition emits {A} (m : M A) (r : A) (out : list event) : Prop :=
  forall t, m t = (Ok r, t ++ out).

(** One assignment of the setup loop (line 120). *)
Definition assign_entry (arg_groups : ArgGroups) (setup : OutputSpec) : ArgGroups :=
  Py.dict_set key_eqb arg_groups (KName (str_output (output setup)))
    (entry_args setup).

(** The warning of line 112, when it is printed. *)
Definition warning_for (d0 : OutputDevice) (setup : OutputSpec) : list event :=
  if is_connected d0 then []
  else [stderr_line ("warning: " ++ str_output (output setup)
                     ++ " is not connected")].

(** The trace when the query is about to run in [set_display_setup]. *)
Definition before_query (t : trace) (setup_name setups_file : string) : trace :=
  t ++ [EvOpen setups_file;
        stdout_line ("Activating display setup " ++ setup_name)].

Definition nonscreen (lines : list string) : list string :=
  filter (fun l => negb (is_screen l)) lines.

Definition block_lines (b : string * list string) : list string :=
  fst b :: snd b.

(** The first token of the line splits on ['x'] into two pieces. *)
Definition has_mode (line : string) : Prop :=
  exists tok more w h,
    Py.split line = tok :: more /\ Py.split_on "x" tok = [w; h].

(** What the prober needs of the lines of the query output. *)
Definition query_well_formed (lines : list string) : Prop :=
  query_precondition starts_with_space lines /\
  forall line, In line lines ->
    is_mode_line starts_with_space line = true -> has_mode line.

Definition nonspace (c : ascii) : bool := negb (Py.isspace c).

(** A non-empty string without whitespace. *)
Definition is_token (s : string) : bool :=
  negb (Py.isempty s) && all_chars nonspace s.

Definition first_token (line : string) : string :=
  hd EmptyString (Py.split line).

Definition header_lines (lines : list string) : list string :=
  filter (is_header starts_with_space) lines.

Definition not_x (c : ascii) : bool := negb (Ascii.eqb c "x").

Definition not_linebreak (c : ascii) : bool := negb (Py.islinebreak c).

(** The output that a group addresses: the token after [--output]. *)
Definition group_output (g : list string) : string := nth 1 g EmptyString.

(** The outputs that the groups of a mapping address, in order. *)
Definition addressed (groups : ArgGroups) : list string :=
  map group_output (Py.dict_values groups).

(** Every entry names a probed display. *)
Definition all_known (available_displays : list OutputDevice)
    (display_setup : list OutputSpec) : bool :=
  forallb (fun s => existsb (name_is (output s)) available_displays)
    display_setup.

(** The warnings of the setup loop, entry by entry. *)
Definition warnings (available_displays : list OutputDevice)
    (display_setup : list OutputSpec) : list event :=
  flat_map
    (fun s => match filter (name_is (output s)) available_displays with
              | d0 :: _ => warning_for d0 s
              | [] => []
              end)
    display_setup.

(** The displays that satisfy [p], with their positions counted from [idx]. *)
Fixpoint select_from (p : OutputDevice -> bool) (idx : nat)
    (displays : list OutputDevice) : list (nat * OutputDevice) :=
  match displays with
  | [] => []
  | d :: rest =>
      if p d then (idx, d) :: select_from p (S idx) rest
      else select_from p (S idx) rest
  end.

Definition off_item (x : nat * OutputDevice) : key * list string :=
  (KDevice (fst x), off_args (snd x)).

(** ** The scenarios of the specification *)

Module Scenario.

Definition home : list OutputSpec :=
  [ mkOutputSpec (Some "eDP-1") (Some (1920, 1080)%Z) (Some (0, 0)%Z);
    mkOutputSpec (Some "HDMI-1") None None ].

Definition probed : list OutputDevice :=
  [ mkOutputDevice "eDP-1" true [];
    mkOutputDevice "HDMI-1" true [];
    mkOutputDevice "VGA-1" false [] ].

Definition setups : Setups := [("home", home)].

Definition the_file (_ : string) : result Setups := Ok setups.

(** The query prints what parses to [probed]; every other invocation
    exits with status 0. *)
Definition query_text : string :=
  "Screen 0: minimum 320 x 200, current 1920 x 1080" ++ Py.nl ++
  "eDP-1 connected primary 1920x1080+0+0" ++ Py.nl ++
  "HDMI-1 connected" ++ Py.nl ++
  "VGA-1 disconnected" ++ Py.nl.

Definition the_system (_ : trace) (argv : list string) : option (Z * string) :=
  match argv with
  | ["xrandr"] => Some (0%Z, query_text)
  | _ => Some (0%Z, EmptyString)
  end.

(** A system on which the apply invocation exits with status 1. *)
Definition failing_system (_ : trace) (argv : list string)
  : option (Z * string) :=
  match argv with
  | ["xrandr"] => Some (0%Z, query_text)
  | _ => Some (1%Z, EmptyString)
  end.

(** A setup that names an output that the query does not report. *)
Definition docked : list OutputSpec :=
  [ mkOutputSpec (Some "eDP-1") None None;
    mkOutputSpec (Some "DP-9") None None ].

Definition two_setups : Setups :=
  [("home", home); ("docked", docked); ("none", [])].

Definition two_files (_ : string) : result Setups := Ok two_setups.

Definition namespace (setup : option string) : Namespace :=
  mkNamespace setup "displaysetups.json" false false.

(** A setup that names the display that is not connected. *)
Definition with_vga : list OutputSpec :=
  [ mkOutputSpec (Some "eDP-1") None None;
    mkOutputSpec (Some "VGA-1") (Some (1024, 768)%Z) (Some (1920, 0)%Z);
    mkOutputSpec (Some "eDP-1") (Some (1920, 1080)%Z) None ].

Definition with_vga_groups : ArgGroups :=
  [ (KName "eDP-1",
     ["--output"; "eDP-1"; "--pos"; "0x0"; "--mode"; "1920x1080"]);
    (KName "VGA-1",
     ["--output"; "VGA-1"; "--pos"; "1920x0"; "--mode"; "1024x768"]);
    (KDevice 1, ["--output"; "HDMI-1"; "--off"]) ].

(** A query output with an interlaced mode. *)
Definition interlaced_text : string :=
  "HDMI-1 connected 1920x1080+0+0" ++ Py.nl ++
  "   1920x1080i    60.00*" ++ Py.nl.

(** A query output whose only line is a mode line indented with a tab. *)
Definition tab_text : string :=
  String (ascii_of_nat 9) "1920x1080     60.00*+".

(** A query output whose only line has one token. *)
Definition one_token_text : string := "eDP-1".

(** A query output that starts with an indented line. *)
Definition indented_first_text : string :=
  "   1920x1080     60.00*+" ++ Py.nl ++ "eDP-1 connected" ++ Py.nl.

(** A system on which every process prints the given text and exits
    with status 0. *)
Definition prints (text : string) (_ : trace) (_ : list string)
  : option (Z * string) := Some (0%Z, text).

End Scenario.

(** * Properties *)

(** ** The display prober *)

Lemma two_props (l : list string) (a b : string) :
  nth_error l 0 = Some a -> nth_error l 1 = Some b ->
  exists more, l = a :: b :: more.
Proof.
  destruct l as [|a' [|b' more]]; simpl; try discriminate.
  intros [= ->] [= ->]. now exists more.
Qed.

Lemma first_prop (l : list string) (a : string) :
  nth_error l 0 = Some a -> exists more, l = a :: more.
Proof.
  destruct l as [|a' more]; simpl; try discriminate.
  intros [= ->]. now exists more.
Qed.

Lemma same_record (d : OutputDevice) :
  mkOutputDevice (name d) (is_connected d) (modes d ++ []) = d.
Proof. destruct d; simpl. now rewrite app_nil_r. Qed.

(** What a run of the loop that returns has read, for both states of
    [new_display]. *)
Lemma parse_lines_blocks (lines : list string) :
  forall displays cur res,
    parse_lines lines displays cur = Ok res ->
    exists ind ms blocks ds,
      nonscreen lines = ind ++ flat_map block_lines blocks /\
      Forall2 gives_mode ind ms /\
      Forall2 block_record blocks ds /\
      match cur with
      | None => ind = [] /\ res = displays ++ ds
      | Some d =>
          res = displays ++
                mkOutputDevice (name d) (is_connected d) (modes d ++ ms) :: ds
      end.
Proof.
  induction lines as [|line rest IH]; intros displays cur res H.
  - exists [], [], [], []. simpl in *. injection H as <-.
    repeat split; try constructor.
    destruct cur as [d|]; simpl.
    + now rewrite same_record.
    + split; [reflexivity | now rewrite app_nil_r].
  - cbn [parse_lines] in H. unfold nonscreen. cbn [filter]. unfold is_screen at 1.
    destruct (Py.startswith line "Screen") eqn:Escreen; cbn [negb].
    { apply IH in H. exact H. }
    destruct (Py.startswith line " ") eqn:Espace; cbn [negb] in H.
    + (* an indented line *)
      destruct (nth_error (Py.split line) 0) as [tok|] eqn:Etok; [|discriminate].
      destruct cur as [d|]; [|discriminate].
      destruct (Py.split_on "x" tok) as [|w [|h [|x more]]] eqn:Eres;
        try discriminate.
      apply IH in H. destruct H as (ind & ms & blocks & ds & Hl & Hm & Hb & Hres).
      exists (line :: ind), ((w, h) :: ms), blocks, ds.
      repeat split; trivial.
      * simpl. f_equal. exact Hl.
      * constructor; [|exact Hm].
        split.
        -- unfold is_mode_line, is_screen, starts_with_space.
           now rewrite Escreen, Espace.
        -- destruct (first_prop _ _ Etok) as [more Hsplit].
           exists tok, more. now split.
      * simpl in Hres. now rewrite <- app_assoc in Hres.
    + (* a header line *)
      destruct (nth_error (Py.split line) 0) as [nm|] eqn:Enm; [|discriminate].
      destruct (nth_error (Py.split line) 1) as [st|] eqn:Est; [|discriminate].
      apply IH in H. destruct H as (ind & ms & blocks & ds & Hl & Hm & Hb & Hres).
      simpl in Hres.
      assert (Hrec : block_record (line, ind)
                       (mkOutputDevice nm (String.eqb st "connected") ms)).
      { split; [|exact Hm]. cbn [fst]. split.
        - unfold is_header, is_screen, starts_with_space.
          now rewrite Escreen, Espace.
        - destruct (two_props _ _ _ Enm Est) as [more Hsplit].
          exists st, more. now split. }
      exists [], [], ((line, ind) :: blocks),
        (mkOutputDevice nm (String.eqb st "connected") ms :: ds).
      repeat split; try constructor; trivial.
      * simpl. unfold block_lines at 1. simpl. f_equal. exact Hl.
      * destruct cur as [d|]; simpl in *.
        -- rewrite same_record. now rewrite <- app_assoc in Hres.
        -- split; [reflexivity | exact Hres].
Qed.

Lemma parse_displays_blocks (text : string) (displays : list OutputDevice) :
  parse_displays text = Ok displays ->
  exists blocks : list (string * list string),
    nonscreen (Py.splitlines text) = flat_map block_lines blocks /\
    Forall2 block_record blocks displays.
Proof.
  intros H. apply parse_lines_blocks in H.
  destruct H as (ind & ms & blocks & ds & Hl & _ & Hb & Hres).
  simpl in Hres. destruct Hres as [-> ->].
  exists blocks. now split.
Qed.

Lemma header_flags (line : string) :
  Py.startswith line "Screen" = false -> Py.startswith line " " = false ->
  is_header starts_with_space line = true /\
  is_mode_line starts_with_space line = false.
Proof.
  intros H1 H2. unfold is_header, is_mode_line, is_screen, starts_with_space.
  now rewrite H1, H2.
Qed.

Lemma mode_line_flags (line : string) :
  Py.startswith line "Screen" = false -> Py.startswith line " " = true ->
  is_header starts_with_space line = false /\
  is_mode_line starts_with_space line = true.
Proof.
  intros H1 H2. unfold is_header, is_mode_line, is_screen, starts_with_space.
  now rewrite H1, H2.
Qed.

Lemma screen_flags (line : string) :
  Py.startswith line "Screen" = true ->
  is_header starts_with_space line = false /\
  is_mode_line starts_with_space line = false.
Proof.
  intros H1. unfold is_header, is_mode_line, is_screen. now rewrite H1.
Qed.

(** What the lines must look like for the loop to return. *)
Lemma parse_lines_requires (lines : list string) :
  forall displays cur res,
    parse_lines lines displays cur = Ok res ->
    (forall line, In line lines -> is_header starts_with_space line = true ->
       2 <= length (Py.split line)) /\
    (forall before line after, lines = before ++ line :: after ->
       is_mode_line starts_with_space line = true ->
       cur <> None \/
       exists h, In h before /\ is_header starts_with_space h = true).
Proof.
  induction lines as [|l0 rest IH]; intros displays cur res H.
  - split.
    + intros line [].
    + intros before line after E. now destruct before.
  - cbn [parse_lines] in H.
    destruct (Py.startswith l0 "Screen") eqn:Escreen.
    { destruct (screen_flags _ Escreen) as [Hh Hm].
      destruct (IH _ _ _ H) as [A B]. split.
      - intros line [<-|Hin] Hd; [congruence | now apply A].
      - intros [|b before] line after E Hl; injection E as <- E.
        + congruence.
        + destruct (B _ _ _ E Hl) as [Hc|(h & Hin & Hh')]; [now left|].
          right. exists h. split; [now right | exact Hh']. }
    destruct (Py.startswith l0 " ") eqn:Espace; cbn [negb] in H.
    + destruct (mode_line_flags _ Escreen Espace) as [Hh Hm].
      destruct (nth_error (Py.split l0) 0) as [tok|]; [|discriminate].
      destruct cur as [d|]; [|discriminate].
      destruct (Py.split_on "x" tok) as [|w [|h [|x more]]]; try discriminate.
      destruct (IH _ _ _ H) as [A B]. split.
      * intros line [<-|Hin] Hd; [congruence | now apply A].
      * intros before line after _ _. now left.
    + destruct (header_flags _ Escreen Espace) as [Hh Hm].
      destruct (nth_error (Py.split l0) 0) as [nm|] eqn:Enm; [|discriminate].
      destruct (nth_error (Py.split l0) 1) as [st|] eqn:Est; [|discriminate].
      destruct (two_props _ _ _ Enm Est) as [more Hsplit].
      destruct (IH _ _ _ H) as [A B]. split.
      * intros line [<-|Hin] Hd; [|now apply A].
        rewrite Hsplit. simpl. lia.
      * intros [|b before] line after E Hl; injection E as <- E.
        -- congruence.
        -- right. exists l0. split; [now left | exact Hh].
Qed.

Lemma parse_displays_requires (text : string) (displays : list OutputDevice) :
  parse_displays text = Ok displays ->
  query_precondition starts_with_space (Py.splitlines text).
Proof.
  intros H. destruct (parse_lines_requires _ _ _ _ H) as [A B].
  split; [exact A|].
  intros before line after E Hl.
  destruct (B _ _ _ E Hl) as [Hc|Hex]; [now elim Hc | exact Hex].
Qed.

(** The prober runs the query once and returns what parsing its output
    gives. *)
Lemma get_available_displays_inv
    (run_process : trace -> list string -> option (Z * string))
    (t : trace) (r : result (list OutputDevice)) (t' : trace) :
  get_available_displays run_process t = (r, t') ->
  t' = t ++ [EvRun ["xrandr"]] /\
  match run_process t ["xrandr"] with
  | Some (_, out) => r = parse_displays out
  | None => r = Raise OSError
  end.
Proof.
  unfold get_available_displays, bind, subprocess_run.
  destruct (run_process t ["xrandr"]) as [[rc out]|]; cbn [stdout].
  - destruct (parse_displays out); unfold ret, raise; intros [= <- <-]; now split.
  - intros [= <- <-]. now split.
Qed.

(** C8 (amended): when the prober returns, the lines of the query output
    other than the Screen lines are the header lines, each followed by its
    indented lines; the records are those of the header lines, in order,
    and the mode list of a record holds, in order, one pair of strings per
    indented line of its block: the two pieces of the line's first
    whitespace-delimited token around its single 'x', kept as text. *)
Theorem modes_are_split_tokens
    (run_process : trace -> list string -> option (Z * string))
    (t t' : trace) (displays : list OutputDevice) :
  get_available_displays run_process t = (Ok displays, t') ->
  exists (rc : Z) (out : string) (blocks : list (string * list string)),
    run_process t ["xrandr"] = Some (rc, out) /\
    nonscreen (Py.splitlines out) = flat_map block_lines blocks /\
    Forall2 block_record blocks displays.
Proof.
  intros H. apply get_available_displays_inv in H. destruct H as [_ H].
  destruct (run_process t ["xrandr"]) as [[rc out]|]; [|discriminate].
  symmetry in H. apply parse_displays_blocks in H.
  destruct H as (blocks & Hl & Hb).
  exists rc, out, blocks. now repeat split.
Qed.

Lemma modes_are_split_tokens_witness :
  get_available_displays (Scenario.prints Scenario.interlaced_text) []
  = (Ok [mkOutputDevice "HDMI-1" true [("1920", "1080i")]],
     [EvRun ["xrandr"]]) /\
  exists (rc : Z) (out : string) (blocks : list (string * list string)),
    Scenario.prints Scenario.interlaced_text [] ["xrandr"] = Some (rc, out) /\
    nonscreen (Py.splitlines out) = flat_map block_lines blocks /\
    Forall2 block_record blocks
      [mkOutputDevice "HDMI-1" true [("1920", "1080i")]].
Proof.
  split; [vm_compute; reflexivity|].
  apply (modes_are_split_tokens (Scenario.prints Scenario.interlaced_text)
           [] [EvRun ["xrandr"]]).
  vm_compute. reflexivity.
Defined.

(** C8 (as stated) fails: the pair stored for the mode line of an
    interlaced mode is the pair of strings ("1920", "1080i"), which is
    not a pair of positive integers. *)
Lemma modes_not_positive_integers :
  get_available_displays (Scenario.prints Scenario.interlaced_text) []
  = (Ok [mkOutputDevice "HDMI-1" true [("1920", "1080i")]],
     [EvRun ["xrandr"]]) /\
  positive_int_modes (mkOutputDevice "HDMI-1" true [("1920", "1080i")]) = false.
Proof. split; vm_compute; reflexivity. Qed.

(** C10 (amended): the prober returns only when every line of the query
    output that neither begins with "Screen" nor starts with a space
    character has at least two whitespace-separated tokens and every line
    that starts with a space character comes after such a header line;
    on an output that violates this, the prober raises. *)
Theorem prober_returns_only_on_well_formed
    (run_process : trace -> list string -> option (Z * string))
    (t : trace) (rc : Z) (out : string) :
  run_process t ["xrandr"] = Some (rc, out) ->
  (forall displays t',
     get_available_displays run_process t = (Ok displays, t') ->
     query_precondition starts_with_space (Py.splitlines out)) /\
  (~ query_precondition starts_with_space (Py.splitlines out) ->
   exists e, get_available_displays run_process t
             = (Raise e, t ++ [EvRun ["xrandr"]])).
Proof.
  intros Hrun. split.
  - intros displays t' H. apply get_available_displays_inv in H.
    destruct H as [_ H]. rewrite Hrun in H. symmetry in H.
    now apply parse_displays_requires in H.
  - intros Hbad.
    destruct (get_available_displays run_process t) as [r t'] eqn:E.
    destruct (get_available_displays_inv _ _ _ _ E) as [-> H].
    rewrite Hrun in H. destruct r as [displays|e].
    + symmetry in H. apply parse_displays_requires in H. contradiction.
    + now exists e.
Qed.

Lemma one_token_violates :
  ~ query_precondition starts_with_space (Py.splitlines Scenario.one_token_text).
Proof.
  intros [A _]. specialize (A "eDP-1" (or_introl eq_refl) eq_refl).
  vm_compute in A. lia.
Qed.

Lemma prober_returns_only_on_well_formed_witness :
  (Scenario.prints Scenario.one_token_text [] ["xrandr"]
   = Some (0%Z, Scenario.one_token_text) /\
   ~ query_precondition starts_with_space
       (Py.splitlines Scenario.one_token_text) /\
   exists e, get_available_displays (Scenario.prints Scenario.one_token_text) []
             = (Raise e, [] ++ [EvRun ["xrandr"]])) /\
  (get_available_displays (Scenario.prints Scenario.query_text) []
   = (Ok Scenario.probed, [EvRun ["xrandr"]]) /\
   query_precondition starts_with_space (Py.splitlines Scenario.query_text)).
Proof.
  split.
  - split; [reflexivity|]. split; [exact one_token_violates|].
    apply (proj2 (prober_returns_only_on_well_formed
                    (Scenario.prints Scenario.one_token_text) [] 0%Z
                    Scenario.one_token_text eq_refl)).
    exact one_token_violates.
  - assert (H : get_available_displays (Scenario.prints Scenario.query_text) []
                = (Ok Scenario.probed, [EvRun ["xrandr"]]))
      by (vm_compute; reflexivity).
    split; [exact H|].
    exact (proj1 (prober_returns_only_on_well_formed
                    (Scenario.prints Scenario.query_text) [] 0%Z
                    Scenario.query_text eq_refl) _ _ H).
Defined.

(** C10 (as stated) fails: a first line indented with a tab is a
    whitespace-indented line that no header line precedes, and the prober
    returns: it reads the line as the header of a record. *)
Lemma prober_returns_on_tab_indented_line :
  get_available_displays (Scenario.prints Scenario.tab_text) []
  = (Ok [mkOutputDevice "1920x1080" false []], [EvRun ["xrandr"]]) /\
  ~ query_precondition starts_with_whitespace (Py.splitlines Scenario.tab_text).
Proof.
  split; [vm_compute; reflexivity|].
  intros [_ B].
  destruct (B [] Scenario.tab_text [] eq_refl eq_refl) as (h & [] & _).
Qed.

(** The two violations that the claim names. *)
Example prober_raises_on_one_token_header :
  get_available_displays (Scenario.prints Scenario.one_token_text) []
  = (Raise IndexError, [EvRun ["xrandr"]]).
Proof. vm_compute. reflexivity. Qed.

Example prober_raises_on_indented_first_line :
  get_available_displays (Scenario.prints Scenario.indented_first_text) []
  = (Raise AttributeError, [EvRun ["xrandr"]]).
Proof. vm_compute. reflexivity. Qed.

(** ** The monad *)

Lemma emits_ret {A} (a : A) : emits (ret a) a [].
Proof. intros t. unfold ret. now rewrite app_nil_r. Qed.

Lemma emits_emit (e : event) : emits (emit e) tt [e].
Proof. intros t. reflexivity. Qed.

Lemma emits_bind {A B} (m : M A) (f : A -> M B) a b o1 o2 :
  emits m a o1 -> emits (f a) b o2 -> emits (bind m f) b (o1 ++ o2).
Proof.
  intros H1 H2 t. unfold bind. rewrite H1, H2. now rewrite app_assoc.
Qed.

(** ** The command builder *)

Section Builder.
Variable available_displays : list OutputDevice.

Lemma matching_some (o : string) :
  In o (map name available_displays) ->
  exists d0 more,
    filter (name_is (Some o)) available_displays = d0 :: more /\ name d0 = o.
Proof.
  intros H. apply in_map_iff in H. destruct H as (d & Hn & Hin).
  destruct (filter (name_is (Some o)) available_displays) as [|d0 more] eqn:E.
  - assert (Hf : In d (filter (name_is (Some o)) available_displays)).
    { apply filter_In. split; [exact Hin|]. simpl. now apply String.eqb_eq. }
    rewrite E in Hf. destruct Hf.
  - exists d0, more. split; [reflexivity|].
    assert (Hf : In d0 (filter (name_is (Some o)) available_displays)).
    { rewrite E. now left. }
    apply filter_In in Hf. destruct Hf as [_ Hf]. now apply String.eqb_eq in Hf.
Qed.

Lemma matching_none (o : string) :
  ~ In o (map name available_displays) ->
  filter (name_is (Some o)) available_displays = [].
Proof.
  intros H.
  destruct (filter (name_is (Some o)) available_displays) as [|d0 more] eqn:E;
    [reflexivity|].
  exfalso. apply H.
  assert (Hf : In d0 (filter (name_is (Some o)) available_displays)).
  { rewrite E. now left. }
  apply filter_In in Hf. destruct Hf as [Hin Hf]. apply String.eqb_eq in Hf.
  apply in_map_iff. now exists d0.
Qed.

(** The two ways through the body of the setup loop. *)
Lemma setup_loop_match (s : OutputSpec) (rest : list OutputSpec)
    (arg_groups : ArgGroups) (d0 : OutputDevice) (more : list OutputDevice) :
  filter (name_is (output s)) available_displays = d0 :: more ->
  forall t,
    setup_loop available_displays (s :: rest) arg_groups t
    = setup_loop available_displays rest (assign_entry arg_groups s)
        (t ++ warning_for d0 s).
Proof.
  intros E t. cbn [setup_loop]. rewrite E. unfold warning_for, bind.
  destruct (is_connected d0); cbn [negb].
  - unfold ret. now rewrite app_nil_r.
  - reflexivity.
Qed.

Lemma setup_loop_no_match (s : OutputSpec) (rest : list OutputSpec)
    (arg_groups : ArgGroups) :
  filter (name_is (output s)) available_displays = [] ->
  emits (setup_loop available_displays (s :: rest) arg_groups) (inl 2%Z)
    [stderr_line ("Output " ++ DQ ++ str_output (output s) ++ DQ
                  ++ " does not exist")].
Proof.
  intros E t. cbn [setup_loop]. now rewrite E.
Qed.

(** The setup loop returns, runs no process, and what it returns and
    prints depends on its arguments only. *)
Lemma setup_loop_emits (display_setup : list OutputSpec) :
  forall arg_groups, exists r out,
    emits (setup_loop available_displays display_setup arg_groups) r out /\
    filter is_run out = [].
Proof.
  induction display_setup as [|s rest IH]; intros arg_groups.
  - exists (inr arg_groups), []. split; [apply emits_ret | reflexivity].
  - destruct (filter (name_is (output s)) available_displays) as [|d0 more] eqn:E.
    + eexists _, _. split; [now apply setup_loop_no_match | reflexivity].
    + destruct (IH (assign_entry arg_groups s)) as (r & out & Hr & Hout).
      exists r, (warning_for d0 s ++ out). split.
      * intros t. rewrite (setup_loop_match _ _ _ _ _ E), Hr.
        now rewrite app_assoc.
      * rewrite filter_app, Hout. unfold warning_for.
        now destruct (is_connected d0).
Qed.

(** An entry whose output is not among the probed ones ends the loop
    with code 2. *)
Lemma setup_loop_unknown (display_setup : list OutputSpec) :
  forall arg_groups,
    (exists s o, In s display_setup /\ output s = Some o /\
                 ~ In o (map name available_displays)) ->
    exists out,
      emits (setup_loop available_displays display_setup arg_groups)
        (inl 2%Z) out /\
      filter is_run out = [].
Proof.
  induction display_setup as [|s rest IH]; intros arg_groups (s' & o & Hin & Ho & Hno).
  - destruct Hin.
  - destruct (filter (name_is (output s)) available_displays) as [|d0 more] eqn:E.
    + eexists. split; [now apply setup_loop_no_match | reflexivity].
    + assert (Hrest : In s' rest).
      { destruct Hin as [<-|Hin]; [|exact Hin].
        rewrite Ho, (matching_none _ Hno) in E. discriminate. }
      destruct (IH (assign_entry arg_groups s)) as (out & Hr & Hout).
      { now exists s', o. }
      exists (warning_for d0 s ++ out). split.
      * intros t. rewrite (setup_loop_match _ _ _ _ _ E), Hr.
        now rewrite app_assoc.
      * rewrite filter_app, Hout. unfold warning_for.
        now destruct (is_connected d0).
Qed.

(** When the loop falls through, every entry has been assigned in turn. *)
Lemma setup_loop_assigns (display_setup : list OutputSpec) :
  forall arg_groups t groups t',
    setup_loop available_displays display_setup arg_groups t
    = (Ok (inr groups), t') ->
    groups = fold_left assign_entry display_setup arg_groups.
Proof.
  induction display_setup as [|s rest IH]; intros arg_groups t groups t' H.
  - cbn in H. now injection H as <- _.
  - destruct (filter (name_is (output s)) available_displays) as [|d0 more] eqn:E.
    + rewrite (setup_loop_no_match _ _ _ E) in H. discriminate.
    + rewrite (setup_loop_match _ _ _ _ _ E) in H.
      apply IH in H. exact H.
Qed.

End Builder.

(** ** The dictionary of argument groups *)

Lemma key_eqb_eq (a b : key) : key_eqb a b = true <-> a = b.
Proof.
  destruct a as [s|i], b as [s'|j]; simpl; split; intros H; try discriminate.
  - apply String.eqb_eq in H. now subst.
  - injection H as ->. apply String.eqb_refl.
  - apply Nat.eqb_eq in H. now subst.
  - injection H as ->. apply Nat.eqb_refl.
Qed.

Lemma dict_contains_In (d : ArgGroups) (k : key) :
  Py.dict_contains key_eqb d k = true <-> In k (Py.dict_keys d).
Proof.
  unfold Py.dict_contains. rewrite existsb_exists. split.
  - intros (k' & Hin & He). apply key_eqb_eq in He. now subst.
  - intros Hin. exists k. split; [exact Hin | now apply key_eqb_eq].
Qed.

(** Assigning to a key that is absent appends an item. *)
Lemma dict_set_fresh (d : ArgGroups) (k : key) (v : list string) :
  Py.dict_contains key_eqb d k = false ->
  Py.dict_set key_eqb d k v = d ++ [(k, v)].
Proof.
  unfold Py.dict_contains, Py.dict_keys.
  induction d as [|[k' v'] r IH]; simpl; intros H; [reflexivity|].
  apply orb_false_iff in H. destruct H as [H1 H2].
  rewrite H1. f_equal. now apply IH.
Qed.

(** Assigning to a name that is present changes the value at its place. *)
Lemma dict_set_named (g : string -> list string) (ks : list string)
    (n : string) (v : list string) :
  NoDup ks -> In n ks ->
  Py.dict_set key_eqb (map (fun m => (KName m, g m)) ks) (KName n) v
  = map (fun m => (KName m, if String.eqb m n then v else g m)) ks.
Proof.
  induction ks as [|m ks IH]; intros Hnd Hin; [destruct Hin|].
  inversion Hnd as [|? ? Hm Hnd']; subst. simpl.
  destruct (String.eqb n m) eqn:E.
  - apply String.eqb_eq in E. subst m. rewrite String.eqb_refl. f_equal.
    apply map_ext_in. intros m Hm'.
    destruct (String.eqb m n) eqn:E'; [|reflexivity].
    apply String.eqb_eq in E'. now subst.
  - rewrite String.eqb_sym, E. f_equal.
    destruct Hin as [->|Hin]; [now rewrite String.eqb_refl in E|].
    now apply IH.
Qed.

Lemma named_contains (g : string -> list string) (ks : list string) (n : string) :
  Py.dict_contains key_eqb (map (fun m => (KName m, g m)) ks) (KName n)
  = existsb (String.eqb n) ks.
Proof.
  unfold Py.dict_contains, Py.dict_keys. rewrite map_map. simpl.
  induction ks as [|m ks IH]; simpl; [reflexivity | now rewrite IH].
Qed.

Lemma existsb_eqb_In (n : string) (l : list string) :
  existsb (String.eqb n) l = true <-> In n l.
Proof.
  rewrite existsb_exists. split.
  - intros (m & Hin & E). apply String.eqb_eq in E. now subst.
  - intros Hin. exists n. split; [exact Hin | apply String.eqb_refl].
Qed.

Lemma first_occurrences_In (n : string) (l : list string) :
  In n (first_occurrences l) <-> In n l.
Proof.
  unfold first_occurrences. rewrite <- in_rev, nodup_In, <- in_rev. reflexivity.
Qed.

Lemma first_occurrences_NoDup (l : list string) : NoDup (first_occurrences l).
Proof. unfold first_occurrences. apply NoDup_rev, NoDup_nodup. Qed.

Lemma first_occurrences_snoc (l : list string) (n : string) :
  first_occurrences (l ++ [n])
  = if in_dec string_dec n l then first_occurrences l
    else first_occurrences l ++ [n].
Proof.
  unfold first_occurrences. rewrite rev_app_distr. simpl.
  destruct (in_dec string_dec n (rev l)) as [Hin|Hin];
    destruct (in_dec string_dec n l) as [Hin'|Hin']; try reflexivity.
  - elim Hin'. now apply in_rev.
  - elim Hin. now apply in_rev in Hin'.
Qed.

Lemma group_of_snoc (l : list OutputSpec) (s : OutputSpec) (m : string) :
  group_of (l ++ [s]) m
  = if String.eqb m (str_output (output s)) then entry_args s else group_of l m.
Proof.
  unfold group_of, last_entry. rewrite rev_app_distr. simpl.
  now destruct (String.eqb m (str_output (output s))).
Qed.

(** After the setup loop, the dictionary holds one item per output name,
    at the place of the name's first entry, with the group of its last
    entry. *)
Lemma assigned_groups (display_setup : list OutputSpec) :
  fold_left assign_entry display_setup []
  = map (fun n => (KName n, group_of display_setup n))
      (first_occurrences (setup_names display_setup)).
Proof.
  induction display_setup as [|s l IH] using rev_ind; [reflexivity|].
  rewrite fold_left_app. simpl. rewrite IH. unfold assign_entry.
  unfold setup_names. rewrite map_app. simpl.
  rewrite first_occurrences_snoc.
  set (n := str_output (output s)).
  fold (setup_names l).
  destruct (in_dec string_dec n (setup_names l)) as [Hin|Hin].
  - rewrite dict_set_named.
    + apply map_ext. intros m. now rewrite group_of_snoc.
    + apply first_occurrences_NoDup.
    + now apply first_occurrences_In.
  - rewrite dict_set_fresh.
    + rewrite map_app. simpl. f_equal.
      * apply map_ext_in. intros m Hm. rewrite group_of_snoc. fold n.
        destruct (String.eqb m n) eqn:E; [|reflexivity].
        apply String.eqb_eq in E. subst m.
        elim Hin. now apply first_occurrences_In.
      * rewrite group_of_snoc. fold n. now rewrite String.eqb_refl.
    + rewrite named_contains. apply not_true_is_false. intros H.
      rewrite existsb_eqb_In, first_occurrences_In in H.
      exact (Hin H).
Qed.

(** The off loop appends one group per probed display whose name is not a
    key, in probe order. *)
Lemma off_loop_values (displays : list OutputDevice) :
  forall idx arg_groups,
    (forall j, In (KDevice j) (Py.dict_keys arg_groups) -> j < idx) ->
    Py.dict_values (off_loop idx displays arg_groups)
    = Py.dict_values arg_groups
      ++ map off_args
           (filter (fun d => negb (Py.dict_contains key_eqb arg_groups
                                     (KName (name d)))) displays).
Proof.
  induction displays as [|display rest IH]; intros idx arg_groups Hkeys.
  - simpl. now rewrite app_nil_r.
  - cbn [off_loop filter].
    destruct (Py.dict_contains key_eqb arg_groups (KName (name display))) eqn:E;
      cbn [negb].
    + apply IH. intros j Hj. apply Hkeys in Hj. lia.
    + rewrite dict_set_fresh.
      2:{ apply not_true_is_false. intros H. apply dict_contains_In in H.
          apply Hkeys in H. lia. }
      rewrite IH.
      * unfold Py.dict_values. rewrite map_app. simpl. rewrite <- app_assoc.
        simpl. f_equal. f_equal. f_equal. apply filter_ext. intros d.
        f_equal. unfold Py.dict_contains, Py.dict_keys.
        rewrite map_app, existsb_app. simpl. now rewrite orb_false_r.
      * intros j Hj. unfold Py.dict_keys in Hj. rewrite map_app in Hj.
        apply in_app_or in Hj. destruct Hj as [Hj|[Hj|[]]].
        -- apply Hkeys in Hj. lia.
        -- simpl in Hj. injection Hj as ->. lia.
Qed.

Lemma mentioned_first (display_setup : list OutputSpec) (d : OutputDevice) :
  existsb (String.eqb (name d)) (first_occurrences (setup_names display_setup))
  = mentioned display_setup d.
Proof.
  unfold mentioned. apply eq_iff_eq_true.
  now rewrite !existsb_eqb_In, first_occurrences_In.
Qed.

(** The values of the built dictionary, in order. *)
Lemma built_values (available_displays : list OutputDevice)
    (display_setup : list OutputSpec) :
  Py.dict_values
    (off_loop 0 available_displays (fold_left assign_entry display_setup []))
  = activation_groups display_setup
    ++ off_groups available_displays display_setup.
Proof.
  rewrite off_loop_values.
  - rewrite assigned_groups. f_equal.
    + unfold Py.dict_values, activation_groups. rewrite map_map. reflexivity.
    + unfold off_groups. f_equal. apply filter_ext. intros d.
      now rewrite named_contains, mentioned_first.
  - rewrite assigned_groups. unfold Py.dict_keys. rewrite map_map. simpl.
    intros j Hj. apply in_map_iff in Hj. destruct Hj as (m & Hm & _).
    discriminate.
Qed.

(** ** The builder as a whole *)

Lemma build_arg_groups_emits (available_displays : list OutputDevice)
    (display_setup : list OutputSpec) :
  exists r out,
    emits (build_arg_groups available_displays display_setup) r out /\
    filter is_run out = [].
Proof.
  destruct (setup_loop_emits available_displays display_setup [])
    as (r0 & out0 & Hr & Hout).
  unfold build_arg_groups. destruct r0 as [code|groups].
  - exists (inl code), out0. split; [|exact Hout].
    intros t. unfold bind. now rewrite Hr.
  - destruct (Nat.eqb (length groups) 0) eqn:E.
    + exists (inl 3%Z),
        (out0 ++ [stderr_line "No connected displays were configured - aborting"]).
      split.
      * intros t. unfold bind. rewrite Hr, E. cbn. now rewrite app_assoc.
      * rewrite filter_app, Hout. reflexivity.
    + exists (inr (off_loop 0 available_displays groups)), out0.
      split; [|exact Hout].
      intros t. unfold bind. now rewrite Hr, E.
Qed.

Lemma build_arg_groups_unknown (available_displays : list OutputDevice)
    (display_setup : list OutputSpec) :
  (exists s o, In s display_setup /\ output s = Some o /\
               ~ In o (map name available_displays)) ->
  exists out,
    emits (build_arg_groups available_displays display_setup) (inl 2%Z) out /\
    filter is_run out = [].
Proof.
  intros H.
  destruct (setup_loop_unknown available_displays display_setup [] H)
    as (out & Hr & Hout).
  exists out. split; [|exact Hout].
  intros t. unfold build_arg_groups, bind. now rewrite Hr.
Qed.

Lemma build_arg_groups_built (available_displays : list OutputDevice)
    (display_setup : list OutputSpec) (t : trace) (groups : ArgGroups)
    (t' : trace) :
  build_arg_groups available_displays display_setup t = (Ok (inr groups), t') ->
  groups = off_loop 0 available_displays (fold_left assign_entry display_setup []).
Proof.
  unfold build_arg_groups, bind.
  destruct (setup_loop available_displays display_setup [] t)
    as [[[code|g0]|e] t1] eqn:E; try discriminate.
  apply setup_loop_assigns in E. subst g0.
  destruct (Nat.eqb _ 0); [discriminate|].
  unfold ret. now intros [= <- _].
Qed.

Lemma positions_from_ext (p q : OutputDevice -> bool) :
  (forall d, p d = q d) ->
  forall displays idx, positions_from p idx displays = positions_from q idx displays.
Proof.
  intros Hpq. induction displays as [|d rest IH]; intros idx; [reflexivity|].
  simpl. now rewrite Hpq, IH.
Qed.

Lemma off_loop_keys (displays : list OutputDevice) :
  forall idx arg_groups,
    (forall j, In (KDevice j) (Py.dict_keys arg_groups) -> j < idx) ->
    Py.dict_keys (off_loop idx displays arg_groups)
    = Py.dict_keys arg_groups
      ++ map KDevice
           (positions_from
              (fun d => negb (Py.dict_contains key_eqb arg_groups (KName (name d))))
              idx displays).
Proof.
  induction displays as [|display rest IH]; intros idx arg_groups Hkeys.
  - simpl. now rewrite app_nil_r.
  - cbn [off_loop positions_from].
    destruct (Py.dict_contains key_eqb arg_groups (KName (name display))) eqn:E;
      cbn [negb].
    + apply IH. intros j Hj. apply Hkeys in Hj. lia.
    + rewrite dict_set_fresh.
      2:{ apply not_true_is_false. intros H. apply dict_contains_In in H.
          apply Hkeys in H. lia. }
      rewrite IH.
      * unfold Py.dict_keys. rewrite map_app. simpl. rewrite <- app_assoc.
        simpl. f_equal. f_equal. f_equal. apply positions_from_ext. intros d.
        f_equal. unfold Py.dict_contains, Py.dict_keys.
        rewrite map_app, existsb_app. simpl. now rewrite orb_false_r.
      * intros j Hj. unfold Py.dict_keys in Hj. rewrite map_app in Hj.
        apply in_app_or in Hj. destruct Hj as [Hj|[Hj|[]]].
        -- apply Hkeys in Hj. lia.
        -- simpl in Hj. injection Hj as ->. lia.
Qed.

(** The keys of every mapping that the builder returns: the names of the
    setup, then the records (by position in the probed list) of the
    displays that the setup does not name. *)
Lemma built_keys (available_displays : list OutputDevice)
    (display_setup : list OutputSpec) (t t' : trace) (groups : ArgGroups) :
  build_arg_groups available_displays display_setup t = (Ok (inr groups), t') ->
  Py.dict_keys groups
  = map KName (first_occurrences (setup_names display_setup))
    ++ map KDevice
         (positions_from (fun d => negb (mentioned display_setup d))
            0 available_displays).
Proof.
  intros H. apply build_arg_groups_built in H. subst groups.
  rewrite off_loop_keys.
  - rewrite assigned_groups. f_equal.
    + unfold Py.dict_keys. rewrite map_map. reflexivity.
    + f_equal. apply positions_from_ext. intros d.
      now rewrite named_contains, mentioned_first.
  - rewrite assigned_groups. unfold Py.dict_keys. rewrite map_map. simpl.
    intros j Hj. apply in_map_iff in Hj. destruct Hj as (m & Hm & _).
    discriminate.
Qed.

(** C7: the builder is a function of the setup and of the probed list:
    two runs of it, after whatever histories, return the same result
    (the same argument groups or the same code) and print the same
    messages. *)
Theorem builder_deterministic (available_displays : list OutputDevice)
    (display_setup : list OutputSpec) (t1 t2 : trace) :
  exists r out,
    build_arg_groups available_displays display_setup t1 = (Ok r, t1 ++ out) /\
    build_arg_groups available_displays display_setup t2 = (Ok r, t2 ++ out).
Proof.
  destruct (build_arg_groups_emits available_displays display_setup)
    as (r & out & Hr & _).
  exists r, out. split; apply Hr.
Qed.

(** ** The program *)

Section Run.
Variable load_json : string -> result Setups.
Variable run_process : trace -> list string -> option (Z * string).

(** [set_display_setup] from its call to the end of the builder. *)
Lemma set_display_setup_built (setup_name setups_file : string)
    (dry_run : bool) (t : trace) (setups : Setups)
    (display_setup : list OutputSpec) (rc : Z) (out : string)
    (available_displays : list OutputDevice) (r : Z + ArgGroups)
    (msgs : list event) :
  load_json setups_file = Ok setups ->
  Py.dict_get String.eqb setups setup_name = Some display_setup ->
  run_process (before_query t setup_name setups_file) ["xrandr"]
  = Some (rc, out) ->
  parse_displays out = Ok available_displays ->
  emits (build_arg_groups available_displays display_setup) r msgs ->
  let t1 := (before_query t setup_name setups_file ++ [EvRun ["xrandr"]])
            ++ msgs in
  set_display_setup load_json run_process setup_name setups_file dry_run t
  = match r with
    | inl code => (Ok (RetCode code), t1)
    | inr arg_groups =>
        let argv := xrandr_args arg_groups dry_run in
        bind (subprocess_run run_process argv false)
             (fun proc => ret (RetProcess proc))
             (if dry_run
              then t1 ++ [stdout_line ("command: " ++ Py.join " " argv)]
              else t1)
    end.
Proof.
  intros Hload Hget Hrun Hparse Hbuild t1.
  unfold set_display_setup, load_display_setups, bind at 1 2, emit.
  rewrite Hload. unfold ret at 1. rewrite Hget.
  unfold bind at 1, print, emit.
  unfold bind at 1, get_available_displays, bind at 1, subprocess_run at 1.
  replace ((t ++ [EvOpen setups_file])
           ++ [stdout_line ("Activating display setup " ++ setup_name)])
    with (before_query t setup_name setups_file)
    by (unfold before_query; now rewrite <- app_assoc).
  rewrite Hrun. cbn [stdout]. rewrite Hparse. unfold ret at 1.
  unfold bind at 1. rewrite Hbuild. fold t1.
  destruct r as [code|arg_groups]; [reflexivity|].
  cbv zeta. unfold bind at 1. destruct dry_run; reflexivity.
Qed.

(** C3: when an entry of the chosen setup names an output that is not
    among the probed ones, the builder returns code 2 and no argument
    groups, [set_display_setup] returns 2, and the only process that
    was run is the query. *)
Theorem unknown_output_aborts (setup_name setups_file : string)
    (dry_run : bool) (t : trace) (setups : Setups)
    (display_setup : list OutputSpec) (rc : Z) (out : string)
    (available_displays : list OutputDevice) :
  load_json setups_file = Ok setups ->
  Py.dict_get String.eqb setups setup_name = Some display_setup ->
  run_process (before_query t setup_name setups_file) ["xrandr"]
  = Some (rc, out) ->
  parse_displays out = Ok available_displays ->
  (exists s o, In s display_setup /\ output s = Some o /\
               ~ In o (map name available_displays)) ->
  (exists msgs,
     emits (build_arg_groups available_displays display_setup) (inl 2%Z) msgs) /\
  exists t',
    set_display_setup load_json run_process setup_name setups_file dry_run t
    = (Ok (RetCode 2), t') /\
    filter is_run t' = filter is_run t ++ [EvRun ["xrandr"]].
Proof.
  intros Hload Hget Hrun Hparse Hunknown.
  destruct (build_arg_groups_unknown _ _ Hunknown) as (msgs & Hbuild & Hmsgs).
  split; [now exists msgs|].
  eexists. split.
  - rewrite (set_display_setup_built _ _ dry_run _ _ _ _ _ _ _ _
               Hload Hget Hrun Hparse Hbuild).
    reflexivity.
  - unfold before_query. rewrite !filter_app, Hmsgs. simpl.
    now rewrite !app_nil_r.
Qed.

(** C9: the command line of the apply invocation is xrandr, then the
    activation groups (one per output name, in profile order, with the
    content of the last entry for the name), then the off groups in
    probe order, then --dryrun in dry-run mode. *)
Theorem command_line_order (setup_name setups_file : string)
    (dry_run : bool) (t t' : trace) (proc : CompletedProcess) :
  set_display_setup load_json run_process setup_name setups_file dry_run t
  = (Ok (RetProcess proc), t') ->
  exists setups display_setup rc out available_displays,
    load_json setups_file = Ok setups /\
    Py.dict_get String.eqb setups setup_name = Some display_setup /\
    run_process (before_query t setup_name setups_file) ["xrandr"]
    = Some (rc, out) /\
    parse_displays out = Ok available_displays /\
    args proc
    = ["xrandr"]
      ++ concat (activation_groups display_setup)
      ++ concat (off_groups available_displays display_setup)
      ++ (if dry_run then ["--dryrun"] else []) /\
    filter is_run t'
    = filter is_run t ++ [EvRun ["xrandr"]; EvRun (args proc)].
Proof.
  intros H.
  destruct (load_json setups_file) as [setups|e] eqn:Hload.
  2:{ unfold set_display_setup, load_display_setups, bind, emit in H.
      rewrite Hload in H. discriminate. }
  destruct (Py.dict_get String.eqb setups setup_name)
    as [display_setup|] eqn:Hget.
  2:{ unfold set_display_setup, load_display_setups, bind, emit in H.
      rewrite Hload in H. unfold ret at 1 in H. rewrite Hget in H.
      discriminate. }
  destruct (run_process (before_query t setup_name setups_file) ["xrandr"])
    as [[rc out]|] eqn:Hrun.
  2:{ unfold set_display_setup, load_display_setups, bind, emit in H.
      rewrite Hload in H. unfold ret at 1 in H. rewrite Hget in H.
      unfold print, emit, get_available_displays, bind, subprocess_run in H.
      replace ((t ++ [EvOpen setups_file])
               ++ [stdout_line ("Activating display setup " ++ setup_name)])
        with (before_query t setup_name setups_file) in H
        by (unfold before_query; now rewrite <- app_assoc).
      rewrite Hrun in H. discriminate. }
  destruct (parse_displays out) as [available_displays|e] eqn:Hparse.
  2:{ unfold set_display_setup, load_display_setups, bind, emit in H.
      rewrite Hload in H. unfold ret at 1 in H. rewrite Hget in H.
      unfold print, emit, get_available_displays, bind, subprocess_run in H.
      replace ((t ++ [EvOpen setups_file])
               ++ [stdout_line ("Activating display setup " ++ setup_name)])
        with (before_query t setup_name setups_file) in H
        by (unfold before_query; now rewrite <- app_assoc).
      rewrite Hrun in H. cbn [stdout] in H. rewrite Hparse in H.
      discriminate. }
  destruct (build_arg_groups_emits available_displays display_setup)
    as (r & msgs & Hbuild & Hmsgs).
  rewrite (set_display_setup_built _ _ dry_run _ _ _ _ _ _ _ _
             Hload Hget Hrun Hparse Hbuild) in H.
  destruct r as [code|arg_groups]; [discriminate|].
  pose proof (build_arg_groups_built _ _ _ _ _ (Hbuild [])) as Hgroups.
  cbv zeta in H. unfold bind, subprocess_run in H.
  match type of H with
  | context [run_process ?h ?a] =>
      destruct (run_process h a) as [[rc' out']|] eqn:Happly;
      [|discriminate]
  end.
  unfold ret in H. injection H as <- <-.
  exists setups, display_setup, rc, out, available_displays.
  repeat split; trivial.
  - cbn [args]. unfold xrandr_args. rewrite Hgroups, built_values.
    rewrite concat_app. now rewrite <- !app_assoc.
  - cbn [args]. unfold before_query.
    destruct dry_run; rewrite !filter_app, Hmsgs; simpl;
      rewrite ?app_nil_r; now rewrite <- app_assoc.
Qed.

End Run.

Lemma unknown_output_aborts_witness :
  (exists s o, In s Scenario.docked /\ output s = Some o /\
               ~ In o (map name Scenario.probed)) /\
  (exists msgs,
     emits (build_arg_groups Scenario.probed Scenario.docked) (inl 2%Z) msgs) /\
  exists t',
    set_display_setup Scenario.two_files Scenario.the_system
      "docked" "displaysetups.json" false []
    = (Ok (RetCode 2), t') /\
    filter is_run t' = filter is_run [] ++ [EvRun ["xrandr"]].
Proof.
  assert (Hunknown : exists s o, In s Scenario.docked /\ output s = Some o /\
                                 ~ In o (map name Scenario.probed)).
  { exists (mkOutputSpec (Some "DP-9") None None), "DP-9".
    split; [simpl; tauto|]. split; [reflexivity|].
    simpl. intros [H|[H|[H|[]]]]; discriminate. }
  split; [exact Hunknown|].
  apply (unknown_output_aborts Scenario.two_files Scenario.the_system
           "docked" "displaysetups.json" false [] Scenario.two_setups
           Scenario.docked 0%Z Scenario.query_text Scenario.probed).
  - reflexivity.
  - reflexivity.
  - vm_compute. reflexivity.
  - vm_compute. reflexivity.
  - exact Hunknown.
Defined.

(** The scenario with DP-9: code 2, and the query is the only process. *)
Example scenario_unknown_output :
  set_display_setup Scenario.two_files Scenario.the_system
    "docked" "displaysetups.json" false []
  = (Ok (RetCode 2),
     [EvOpen "displaysetups.json";
      stdout_line "Activating display setup docked";
      EvRun ["xrandr"];
      stderr_line ("Output " ++ DQ ++ "DP-9" ++ DQ ++ " does not exist")]).
Proof. vm_compute. reflexivity. Qed.

Lemma scenario_home_dry_run :
  set_display_setup Scenario.the_file Scenario.the_system
    "home" "displaysetups.json" true []
  = (Ok (RetProcess
           (mkCompletedProcess
              ["xrandr"; "--output"; "eDP-1"; "--pos"; "0x0"; "--mode";
               "1920x1080"; "--output"; "HDMI-1"; "--pos"; "0x0"; "--auto";
               "--output"; "VGA-1"; "--off"; "--dryrun"]
              0%Z None)),
     [EvOpen "displaysetups.json";
      stdout_line "Activating display setup home";
      EvRun ["xrandr"];
      stdout_line "command: xrandr --output eDP-1 --pos 0x0 --mode 1920x1080 --output HDMI-1 --pos 0x0 --auto --output VGA-1 --off --dryrun";
      EvRun ["xrandr"; "--output"; "eDP-1"; "--pos"; "0x0"; "--mode";
             "1920x1080"; "--output"; "HDMI-1"; "--pos"; "0x0"; "--auto";
             "--output"; "VGA-1"; "--off"; "--dryrun"]]).
Proof. vm_compute. reflexivity. Qed.

Lemma command_line_order_witness :
  exists proc t',
    set_display_setup Scenario.the_file Scenario.the_system
      "home" "displaysetups.json" true []
    = (Ok (RetProcess proc), t') /\
    args proc
    = ["xrandr"]
      ++ concat (activation_groups Scenario.home)
      ++ concat (off_groups Scenario.probed Scenario.home)
      ++ ["--dryrun"].
Proof.
  eexists _, _. split; [exact scenario_home_dry_run|].
  destruct (command_line_order Scenario.the_file Scenario.the_system
              "home" "displaysetups.json" true [] _ _ scenario_home_dry_run)
    as (setups & display_setup & rc & out & available
        & Hload & Hget & Hrun & Hparse & Hargs & _).
  injection Hload as <-. injection Hget as <-. injection Hrun as <- <-.
  vm_compute in Hparse. injection Hparse as <-.
  exact Hargs.
Defined.

(** C6: with no setup argument, [main] opens the setups file, prints the
    header that names the file and then the setup names, one per line,
    and ends with status 0; no process is run, whether the file loads or
    not. *)
Theorem listing_runs_no_process
    (load_json : string -> result Setups)
    (run_process : trace -> list string -> option (Z * string))
    (ns : Namespace) (t : trace) :
  ns_setup ns = None ->
  filter is_run (snd (main load_json run_process ns t)) = filter is_run t /\
  forall setups,
    load_json (ns_jsonfile ns) = Ok setups ->
    main load_json run_process ns t
    = (Ok tt,
       t ++ [EvOpen (ns_jsonfile ns);
             stdout_line ("The following setups are defined in "
                          ++ ns_jsonfile ns ++ ":");
             stdout_line (Py.join Py.nl (Py.dict_keys setups))]) /\
    exit_status (fst (main load_json run_process ns t)) = 0%Z.
Proof.
  intros Hns. unfold main. rewrite Hns.
  unfold list_display_setups, load_display_setups, bind, emit, print, emit.
  destruct (load_json (ns_jsonfile ns)) as [setups|e]; cbn.
  - split.
    + rewrite <- !app_assoc, filter_app. simpl. now rewrite app_nil_r.
    + intros ? [= <-]. rewrite <- !app_assoc. simpl. now split.
  - split; [|discriminate].
    rewrite filter_app. simpl. now rewrite app_nil_r.
Qed.

Lemma listing_runs_no_process_witness :
  ns_setup (Scenario.namespace None) = None /\
  main Scenario.two_files Scenario.failing_system (Scenario.namespace None) []
  = (Ok tt,
     [EvOpen "displaysetups.json";
      stdout_line "The following setups are defined in displaysetups.json:";
      stdout_line (Py.join Py.nl ["home"; "docked"; "none"])]).
Proof.
  split; [reflexivity|].
  apply (proj2 (listing_runs_no_process Scenario.two_files
                  Scenario.failing_system (Scenario.namespace None) []
                  eq_refl) Scenario.two_setups eq_refl).
Defined.

(** C1 (the code at the scenario of the specification): the off group of
    VGA-1 is stored under the record of the display, not under its name,
    so the keys are not the probed output names. *)
Theorem off_group_key_is_the_record :
  exists groups,
    build_arg_groups Scenario.probed Scenario.home [] = (Ok (inr groups), []) /\
    Py.dict_keys groups = [KName "eDP-1"; KName "HDMI-1"; KDevice 2] /\
    Py.dict_contains key_eqb groups (KName "VGA-1") = false /\
    nth_error Scenario.probed 2 = Some (mkOutputDevice "VGA-1" false []).
Proof.
  eexists. split; [vm_compute; reflexivity|].
  repeat split.
Qed.

(** C4 (the code at the scenario of the specification): the three groups
    hold the expected tokens, in the expected order; the groups of eDP-1
    and HDMI-1 are stored under these names, the group of VGA-1 under the
    record of the display, and nothing is stored under the name VGA-1. *)
Theorem scenario_groups :
  exists groups,
    build_arg_groups Scenario.probed Scenario.home [] = (Ok (inr groups), []) /\
    groups
    = [ (KName "eDP-1",
         ["--output"; "eDP-1"; "--pos"; "0x0"; "--mode"; "1920x1080"]);
        (KName "HDMI-1",
         ["--output"; "HDMI-1"; "--pos"; "0x0"; "--auto"]);
        (KDevice 2, ["--output"; "VGA-1"; "--off"]) ] /\
    Py.dict_get key_eqb groups (KName "VGA-1") = None.
Proof.
  eexists. split; [vm_compute; reflexivity|]. split; reflexivity.
Qed.

(** C2 (the code at four runs): [set_display_setup] returns 1, 2 and 3,
    or the result of an apply invocation that exited with status 1, and
    [main] drops what it returns: the exit status of the process is 0
    each time. *)
Theorem return_value_is_dropped :
  (fst (set_display_setup Scenario.two_files Scenario.the_system
          "nosuch" "displaysetups.json" false []) = Ok (RetCode 1) /\
   exit_status (fst (main Scenario.two_files Scenario.the_system
                       (Scenario.namespace (Some "nosuch")) [])) = 0%Z) /\
  (fst (set_display_setup Scenario.two_files Scenario.the_system
          "docked" "displaysetups.json" false []) = Ok (RetCode 2) /\
   exit_status (fst (main Scenario.two_files Scenario.the_system
                       (Scenario.namespace (Some "docked")) [])) = 0%Z) /\
  (fst (set_display_setup Scenario.two_files Scenario.the_system
          "none" "displaysetups.json" false []) = Ok (RetCode 3) /\
   exit_status (fst (main Scenario.two_files Scenario.the_system
                       (Scenario.namespace (Some "none")) [])) = 0%Z) /\
  (exists proc,
     fst (set_display_setup Scenario.two_files Scenario.failing_system
            "home" "displaysetups.json" false []) = Ok (RetProcess proc) /\
     returncode proc = 1%Z /\
     exit_status (fst (main Scenario.two_files Scenario.failing_system
                         (Scenario.namespace (Some "home")) [])) = 0%Z).
Proof.
  repeat split; try (vm_compute; reflexivity).
  eexists. repeat split; vm_compute; reflexivity.
Qed.

(** [main] in apply mode ends with status 0 whenever [set_display_setup]
    returns, and with status 1 when it raises. *)
Lemma apply_exit_status
    (load_json : string -> result Setups)
    (run_process : trace -> list string -> option (Z * string))
    (ns : Namespace) (setup : string) (t : trace) :
  ns_setup ns = Some setup ->
  exit_status (fst (main load_json run_process ns t))
  = match fst (set_display_setup load_json run_process setup
                 (ns_jsonfile ns) (ns_dry_run ns) t) with
    | Ok _ => 0%Z
    | Raise _ => 1%Z
    end.
Proof.
  intros Hns. unfold main. rewrite Hns. unfold bind.
  now destruct (set_display_setup load_json run_process setup
                  (ns_jsonfile ns) (ns_dry_run ns) t) as [[r|e] t'].
Qed.

(** Two entries for one output: one group, at the place of the first
    entry, with the content of the last one. *)
Example duplicate_entry_groups :
  build_arg_groups Scenario.probed
    [ mkOutputSpec (Some "HDMI-1") None None;
      mkOutputSpec (Some "eDP-1") None None;
      mkOutputSpec (Some "HDMI-1") (Some (1280, 720)%Z) (Some (1920, 0)%Z) ] []
  = (Ok (inr
           [ (KName "HDMI-1",
              ["--output"; "HDMI-1"; "--pos"; "1920x0"; "--mode"; "1280x720"]);
             (KName "eDP-1",
              ["--output"; "eDP-1"; "--pos"; "0x0"; "--auto"]);
             (KDevice 2, ["--output"; "VGA-1"; "--off"]) ]),
     []).
Proof. vm_compute. reflexivity. Qed.

(** * Further properties of the program *)

(** ** The query output that the prober accepts *)

Lemma two_tokens (l : list string) :
  2 <= length l -> exists a b more, l = a :: b :: more.
Proof.
  destruct l as [|a [|b more]]; simpl; intros H; try lia.
  now exists a, b, more.
Qed.

(** The indented lines of a query output that was read have a mode. *)
Lemma parse_lines_modes (lines : list string) :
  forall displays cur res,
    parse_lines lines displays cur = Ok res ->
    forall line, In line lines ->
      is_mode_line starts_with_space line = true -> has_mode line.
Proof.
  induction lines as [|l0 rest IH]; intros displays cur res H line Hin Hl;
    [destruct Hin|].
  cbn [parse_lines] in H.
  destruct (Py.startswith l0 "Screen") eqn:Escreen.
  { destruct (screen_flags _ Escreen) as [_ Hm].
    destruct Hin as [<-|Hin]; [congruence | now apply (IH _ _ _ H)]. }
  destruct (Py.startswith l0 " ") eqn:Espace; cbn [negb] in H.
  - destruct (nth_error (Py.split l0) 0) as [tok|] eqn:Etok; [|discriminate].
    destruct cur as [d|]; [|discriminate].
    destruct (Py.split_on "x" tok) as [|w [|h [|x more]]] eqn:Eres;
      try discriminate.
    destruct Hin as [<-|Hin]; [|now apply (IH _ _ _ H)].
    destruct (first_prop _ _ Etok) as [more Hsplit].
    now exists tok, more, w, h.
  - destruct (header_flags _ Escreen Espace) as [_ Hm].
    destruct (nth_error (Py.split l0) 0) as [nm|]; [|discriminate].
    destruct (nth_error (Py.split l0) 1) as [st|]; [|discriminate].
    destruct Hin as [<-|Hin]; [congruence | now apply (IH _ _ _ H)].
Qed.

(** Lines of the accepted form are read to the end. *)
Lemma parse_lines_returns (lines : list string) :
  forall displays cur,
    (forall line, In line lines -> is_header starts_with_space line = true ->
       2 <= length (Py.split line)) ->
    (forall line, In line lines ->
       is_mode_line starts_with_space line = true -> has_mode line) ->
    (forall before line after, lines = before ++ line :: after ->
       is_mode_line starts_with_space line = true ->
       cur <> None \/
       exists h, In h before /\ is_header starts_with_space h = true) ->
    exists res, parse_lines lines displays cur = Ok res.
Proof.
  induction lines as [|l0 rest IH]; intros displays cur Hh Hm Hb.
  - now eexists.
  - cbn [parse_lines].
    destruct (Py.startswith l0 "Screen") eqn:Escreen.
    { destruct (screen_flags _ Escreen) as [Fh Fm].
      apply IH.
      - intros line Hin. apply Hh. now right.
      - intros line Hin. apply Hm. now right.
      - intros before line after E Hl.
        destruct (Hb (l0 :: before) line after) as [Hc|(h & [<-|Hin] & Hhd)];
          trivial.
        + simpl. now f_equal.
        + now left.
        + congruence.
        + right. now exists h. }
    destruct (Py.startswith l0 " ") eqn:Espace; cbn [negb].
    + destruct (mode_line_flags _ Escreen Espace) as [Fh Fm].
      destruct (Hm l0 (or_introl eq_refl) Fm) as (tok & more & w & h & Hs & Hx).
      rewrite Hs. cbn [nth_error]. rewrite Hx.
      destruct (Hb [] l0 rest eq_refl Fm) as [Hc|(h' & [] & _)].
      destruct cur as [d|]; [|now elim Hc].
      apply IH.
      * intros line Hin. apply Hh. now right.
      * intros line Hin. apply Hm. now right.
      * intros before line after _ _. now left.
    + destruct (header_flags _ Escreen Espace) as [Fh Fm].
      destruct (two_tokens _ (Hh l0 (or_introl eq_refl) Fh))
        as (a & b & more & Hs).
      rewrite Hs. cbn [nth_error].
      apply IH.
      * intros line Hin. apply Hh. now right.
      * intros line Hin. apply Hm. now right.
      * intros before line after _ _. now left.
Qed.

Lemma parse_displays_returns_iff (text : string) :
  (exists displays, parse_displays text = Ok displays) <->
  query_well_formed (Py.splitlines text).
Proof.
  split.
  - intros [displays H]. split.
    + now apply parse_displays_requires in H.
    + now apply (parse_lines_modes _ _ _ _ H).
  - intros [[Hh Hb] Hm]. apply parse_lines_returns; trivial.
    intros before line after E Hl. right. now apply (Hb before line after).
Qed.

(** X1: when xrandr can be launched, the prober returns a list of records
    exactly when, in the query output, every line that neither begins with
    "Screen" nor starts with a space has at least two tokens, every line
    that starts with a space comes after such a line, and the first token
    of every line that starts with a space splits on 'x' into exactly two
    pieces; on any other output it raises. *)
Theorem prober_returns_iff
    (run_process : trace -> list string -> option (Z * string))
    (t : trace) (rc : Z) (out : string) :
  run_process t ["xrandr"] = Some (rc, out) ->
  ((exists displays,
      get_available_displays run_process t
      = (Ok displays, t ++ [EvRun ["xrandr"]])) <->
   query_well_formed (Py.splitlines out)) /\
  ((exists e,
      get_available_displays run_process t
      = (Raise e, t ++ [EvRun ["xrandr"]])) <->
   ~ query_well_formed (Py.splitlines out)).
Proof.
  intros Hrun.
  destruct (get_available_displays run_process t) as [r t'] eqn:E.
  destruct (get_available_displays_inv _ _ _ _ E) as [-> H].
  rewrite Hrun in H. rewrite <- parse_displays_returns_iff.
  destruct r as [displays|e]; symmetry in H.
  - split; split.
    + intros _. now exists displays.
    + intros _. now exists displays.
    + intros [e He]. discriminate.
    + intros Hno. elim Hno. now exists displays.
  - split; split.
    + intros [displays Hd]. discriminate.
    + intros [displays Hd]. congruence.
    + intros _ [displays Hd]. congruence.
    + intros _. now exists e.
Qed.

Lemma prober_returns_iff_witness :
  Scenario.prints Scenario.query_text [] ["xrandr"]
  = Some (0%Z, Scenario.query_text) /\
  query_well_formed (Py.splitlines Scenario.query_text).
Proof.
  split; [reflexivity|].
  apply (proj1 (proj1 (prober_returns_iff (Scenario.prints Scenario.query_text)
                         [] 0%Z Scenario.query_text eq_refl))).
  exists Scenario.probed. vm_compute. reflexivity.
Defined.

(** ** Tokens *)

Lemma all_chars_app (p : ascii -> bool) (a b : string) :
  all_chars p (a ++ b) = all_chars p a && all_chars p b.
Proof.
  induction a as [|c a IH]; simpl; [reflexivity|].
  now rewrite IH, andb_assoc.
Qed.

Lemma all_chars_snoc (p : ascii -> bool) (s : string) (c : ascii) :
  all_chars p (Py.snoc s c) = all_chars p s && p c.
Proof. unfold Py.snoc. rewrite all_chars_app. simpl. now rewrite andb_true_r. Qed.

(** What [str.split()] returns are tokens. *)
Lemma split_from_tokens (s : string) :
  forall cur, all_chars nonspace cur = true ->
    Forall (fun tok => is_token tok = true) (Py.split_from cur s).
Proof.
  induction s as [|c r IH]; intros cur Hcur; simpl.
  - destruct (Py.isempty cur) eqn:E; constructor; [|constructor].
    unfold is_token. now rewrite E, Hcur.
  - destruct (Py.isspace c) eqn:Ec.
    + destruct (Py.isempty cur) eqn:E.
      * now apply IH.
      * constructor; [|now apply IH].
        unfold is_token. now rewrite E, Hcur.
    + apply IH. rewrite all_chars_snoc, Hcur. unfold nonspace. now rewrite Ec.
Qed.

Lemma split_tokens (s : string) :
  Forall (fun tok => is_token tok = true) (Py.split s).
Proof. now apply split_from_tokens. Qed.

Lemma block_record_name (b : string * list string) (d : OutputDevice) :
  block_record b d ->
  is_token (name d) = true /\ name d = first_token (fst b) /\
  is_header starts_with_space (fst b) = true /\
  Forall (fun l => is_header starts_with_space l = false) (snd b).
Proof.
  intros [[Hh (st & more & Hs & _)] Hm].
  pose proof (split_tokens (fst b)) as Htok. rewrite Hs in Htok.
  inversion Htok as [|? ? Hn _]; subst.
  repeat split; trivial.
  - unfold first_token. now rewrite Hs.
  - clear -Hm. induction Hm as [|l m ls ms [Hl _] _ IH]; constructor; trivial.
    unfold is_mode_line in Hl. unfold is_header.
    apply andb_true_iff in Hl. destruct Hl as [-> ->]. reflexivity.
Qed.

Lemma header_lines_nonscreen (lines : list string) :
  header_lines (nonscreen lines) = header_lines lines.
Proof.
  unfold header_lines, nonscreen.
  induction lines as [|l rest IH]; simpl; [reflexivity|].
  destruct (is_screen l) eqn:E; simpl.
  - unfold is_header at 2. rewrite E. simpl. exact IH.
  - now rewrite IH.
Qed.

Lemma filter_none {A} (p : A -> bool) (l : list A) :
  Forall (fun x => p x = false) l -> filter p l = [].
Proof.
  induction 1 as [|x l Hx _ IH]; simpl; [reflexivity|]. now rewrite Hx.
Qed.

Lemma blocks_names (blocks : list (string * list string))
    (displays : list OutputDevice) :
  Forall2 block_record blocks displays ->
  map name displays
  = map first_token (header_lines (flat_map block_lines blocks)) /\
  Forall (fun d => is_token (name d) = true) displays.
Proof.
  induction 1 as [|b d bs ds Hb _ [IH1 IH2]]; simpl; [now split|].
  destruct (block_record_name _ _ Hb) as (Htok & Hname & Hh & Hrest).
  split; [|now constructor].
  unfold header_lines in *. simpl. rewrite Hh. simpl.
  rewrite filter_app, (filter_none _ _ Hrest). simpl.
  now rewrite Hname, IH1.
Qed.

(** X3: the prober returns one record per header line (a line that
    neither begins with "Screen" nor starts with a space), in the order of
    these lines, named by the first whitespace-delimited token of the
    line; so every name is non-empty and holds no whitespace. *)
Theorem records_follow_header_lines
    (run_process : trace -> list string -> option (Z * string))
    (t t' : trace) (displays : list OutputDevice) :
  get_available_displays run_process t = (Ok displays, t') ->
  exists rc out,
    run_process t ["xrandr"] = Some (rc, out) /\
    map name displays
    = map first_token (header_lines (Py.splitlines out)) /\
    Forall (fun d => is_token (name d) = true) displays.
Proof.
  intros H. apply get_available_displays_inv in H. destruct H as [_ H].
  destruct (run_process t ["xrandr"]) as [[rc out]|]; [|discriminate].
  symmetry in H. apply parse_displays_blocks in H.
  destruct H as (blocks & Hl & Hb).
  exists rc, out. split; [reflexivity|].
  destruct (blocks_names _ _ Hb) as [Hn Ht].
  rewrite <- Hl, header_lines_nonscreen in Hn. now split.
Qed.

Lemma records_follow_header_lines_witness :
  get_available_displays (Scenario.prints Scenario.query_text) []
  = (Ok Scenario.probed, [EvRun ["xrandr"]]) /\
  exists rc out,
    Scenario.prints Scenario.query_text [] ["xrandr"] = Some (rc, out) /\
    map name Scenario.probed
    = map first_token (header_lines (Py.splitlines out)) /\
    Forall (fun d => is_token (name d) = true) Scenario.probed.
Proof.
  assert (H : get_available_displays (Scenario.prints Scenario.query_text) []
              = (Ok Scenario.probed, [EvRun ["xrandr"]]))
    by (vm_compute; reflexivity).
  split; [exact H|].
  exact (records_follow_header_lines _ _ _ _ H).
Defined.

(** ** The outcome of the builder *)

Lemma filter_nil_existsb {A} (p : A -> bool) (l : list A) :
  filter p l = [] <-> existsb p l = false.
Proof.
  induction l as [|x l IH]; simpl; [tauto|].
  destruct (p x); simpl; [split; discriminate | exact IH].
Qed.

Lemma setup_loop_known (available_displays : list OutputDevice)
    (display_setup : list OutputSpec) :
  all_known available_displays display_setup = true ->
  forall arg_groups,
    emits (setup_loop available_displays display_setup arg_groups)
      (inr (fold_left assign_entry display_setup arg_groups))
      (warnings available_displays display_setup).
Proof.
  induction display_setup as [|s rest IH]; intros Hk arg_groups.
  - apply emits_ret.
  - simpl in Hk. apply andb_true_iff in Hk. destruct Hk as [Hs Hrest].
    destruct (filter (name_is (output s)) available_displays)
      as [|d0 more] eqn:E.
    + apply filter_nil_existsb in E. congruence.
    + intros t. rewrite (setup_loop_match _ _ _ _ _ _ E), (IH Hrest).
      unfold warnings. simpl. rewrite E. now rewrite app_assoc.
Qed.

Lemma setup_loop_not_known (available_displays : list OutputDevice)
    (display_setup : list OutputSpec) :
  all_known available_displays display_setup = false ->
  forall arg_groups, exists msgs,
    emits (setup_loop available_displays display_setup arg_groups)
      (inl 2%Z) msgs.
Proof.
  induction display_setup as [|s rest IH]; intros Hk arg_groups;
    [discriminate|].
  simpl in Hk.
  destruct (filter (name_is (output s)) available_displays)
    as [|d0 more] eqn:E.
  - eexists. now apply setup_loop_no_match.
  - assert (Hs : existsb (name_is (output s)) available_displays = true).
    { apply not_false_is_true. intros Hf. apply filter_nil_existsb in Hf.
      congruence. }
    rewrite Hs in Hk. simpl in Hk.
    destruct (IH Hk (assign_entry arg_groups s)) as [msgs Hm].
    exists (warning_for d0 s ++ msgs). intros t.
    rewrite (setup_loop_match _ _ _ _ _ _ E), Hm. now rewrite app_assoc.
Qed.

Lemma dict_set_not_nil (d : ArgGroups) (k : key) (v : list string) :
  Py.dict_set key_eqb d k v <> [].
Proof.
  destruct d as [|[k' v'] r]; simpl; [discriminate|].
  destruct (key_eqb k k'); discriminate.
Qed.

Lemma assigned_not_nil (display_setup : list OutputSpec) :
  forall arg_groups,
    display_setup <> [] \/ arg_groups <> [] ->
    fold_left assign_entry display_setup arg_groups <> [].
Proof.
  induction display_setup as [|s rest IH]; intros arg_groups H; simpl.
  - destruct H as [H|H]; [now elim H | exact H].
  - apply IH. right. apply dict_set_not_nil.
Qed.

(** The builder, case by case. *)
Lemma build_arg_groups_cases (available_displays : list OutputDevice)
    (display_setup : list OutputSpec) :
  (all_known available_displays display_setup = false ->
   exists msgs,
     emits (build_arg_groups available_displays display_setup) (inl 2%Z) msgs) /\
  (display_setup = [] ->
   emits (build_arg_groups available_displays display_setup) (inl 3%Z)
     [stderr_line "No connected displays were configured - aborting"]) /\
  (all_known available_displays display_setup = true ->
   display_setup <> [] ->
   emits (build_arg_groups available_displays display_setup)
     (inr (off_loop 0 available_displays
             (fold_left assign_entry display_setup [])))
     (warnings available_displays display_setup)).
Proof.
  split; [|split].
  - intros Hk.
    destruct (setup_loop_not_known _ _ Hk []) as [msgs Hm].
    exists msgs. intros t. unfold build_arg_groups, bind. now rewrite Hm.
  - intros ->. intros t. reflexivity.
  - intros Hk Hne t. unfold build_arg_groups, bind.
    rewrite (setup_loop_known _ _ Hk).
    destruct (fold_left assign_entry display_setup []) eqn:E.
    + exfalso. revert E. apply assigned_not_nil. now left.
    + reflexivity.
Qed.

(** X4: for a setup whose entries follow the documented format (a string
    as output, or none; pairs of integers as mode and pos, or none), the
    builder returns code 2 exactly when some entry names no probed
    display (an entry whose output is missing or null is such an entry),
    code 3 exactly when the setup has no entry at all, and a mapping
    exactly when the setup has entries that all name probed displays; it
    returns no other code. *)
Theorem builder_outcome (available_displays : list OutputDevice)
    (display_setup : list OutputSpec) :
  exists r msgs,
    emits (build_arg_groups available_displays display_setup) r msgs /\
    (r = inl 2%Z <-> all_known available_displays display_setup = false) /\
    (r = inl 3%Z <-> display_setup = []) /\
    ((exists groups, r = inr groups) <->
     display_setup <> [] /\
     all_known available_displays display_setup = true) /\
    (forall code, r = inl code -> code = 2%Z \/ code = 3%Z).
Proof.
  destruct (build_arg_groups_cases available_displays display_setup)
    as (H2 & H3 & Hok).
  destruct (all_known available_displays display_setup) eqn:Hk.
  - destruct display_setup as [|s rest].
    + exists (inl 3%Z). eexists. split; [now apply H3|].
      split; [split; discriminate|].
      split; [split; reflexivity|].
      split.
      * split; [intros [groups Hg]; discriminate|].
        intros [Hne _]. now elim Hne.
      * intros code [= <-]. now right.
    + do 2 eexists. split; [apply Hok; [reflexivity | discriminate]|].
      split; [split; discriminate|].
      split; [split; discriminate|].
      split.
      * split; [intros _; split; [discriminate | reflexivity]|].
        intros _. now eexists.
      * intros code Hc. discriminate.
  - destruct (H2 eq_refl) as [msgs Hm].
    exists (inl 2%Z), msgs. split; [exact Hm|].
    split; [split; reflexivity|].
    split.
    { split; [discriminate|]. intros ->. discriminate. }
    split.
    + split; [intros [groups Hg]; discriminate|].
      intros [_ Hf]. discriminate.
    + intros code [= <-]. now left.
Qed.

Lemma build_arg_groups_ok (available_displays : list OutputDevice)
    (display_setup : list OutputSpec) (t t' : trace) (groups : ArgGroups) :
  build_arg_groups available_displays display_setup t = (Ok (inr groups), t') ->
  all_known available_displays display_setup = true /\
  display_setup <> [] /\
  groups = off_loop 0 available_displays
             (fold_left assign_entry display_setup []) /\
  t' = t ++ warnings available_displays display_setup.
Proof.
  intros H.
  destruct (build_arg_groups_cases available_displays display_setup)
    as (H2 & H3 & Hok).
  destruct (all_known available_displays display_setup) eqn:Hk.
  - destruct display_setup as [|s rest].
    + rewrite (H3 eq_refl) in H. discriminate.
    + rewrite Hok in H; [|reflexivity|discriminate].
      injection H as <- <-. repeat split. discriminate.
  - destruct (H2 eq_refl) as [msgs Hm]. rewrite Hm in H. discriminate.
Qed.

Lemma with_vga_built :
  build_arg_groups Scenario.probed Scenario.with_vga []
  = (Ok (inr Scenario.with_vga_groups),
     [stderr_line "warning: VGA-1 is not connected"]).
Proof. vm_compute. reflexivity. Qed.

(** ** Looking up the built mapping *)

Lemma off_loop_items (displays : list OutputDevice) :
  forall idx arg_groups,
    (forall j, In (KDevice j) (Py.dict_keys arg_groups) -> j < idx) ->
    off_loop idx displays arg_groups
    = arg_groups
      ++ map off_item
           (select_from
              (fun d => negb (Py.dict_contains key_eqb arg_groups (KName (name d))))
              idx displays).
Proof.
  induction displays as [|display rest IH]; intros idx arg_groups Hkeys.
  - simpl. now rewrite app_nil_r.
  - cbn [off_loop select_from].
    destruct (Py.dict_contains key_eqb arg_groups (KName (name display))) eqn:E;
      cbn [negb].
    + apply IH. intros j Hj. apply Hkeys in Hj. lia.
    + rewrite dict_set_fresh.
      2:{ apply not_true_is_false. intros H. apply dict_contains_In in H.
          apply Hkeys in H. lia. }
      rewrite IH.
      * rewrite <- app_assoc. simpl. f_equal. unfold off_item at 2. simpl.
        f_equal. f_equal.
        clear. generalize (S idx). induction rest as [|d rest IH]; intros n;
          [reflexivity|].
        simpl. unfold Py.dict_contains, Py.dict_keys at 1.
        rewrite map_app, existsb_app. simpl. rewrite orb_false_r.
        fold (Py.dict_keys arg_groups).
        fold (Py.dict_contains key_eqb arg_groups (KName (name d))).
        now rewrite IH.
      * intros j Hj. unfold Py.dict_keys in Hj. rewrite map_app in Hj.
        apply in_app_or in Hj. destruct Hj as [Hj|[Hj|[]]].
        -- apply Hkeys in Hj. lia.
        -- simpl in Hj. injection Hj as ->. lia.
Qed.

Lemma select_from_ext (p q : OutputDevice -> bool) :
  (forall d, p d = q d) ->
  forall displays idx, select_from p idx displays = select_from q idx displays.
Proof.
  intros Hpq. induction displays as [|d rest IH]; intros idx; [reflexivity|].
  simpl. now rewrite Hpq, IH.
Qed.

(** The items of every mapping that the builder returns. *)
Lemma built_items (available_displays : list OutputDevice)
    (display_setup : list OutputSpec) :
  off_loop 0 available_displays (fold_left assign_entry display_setup [])
  = map (fun n => (KName n, group_of display_setup n))
      (first_occurrences (setup_names display_setup))
    ++ map off_item
         (select_from (fun d => negb (mentioned display_setup d))
            0 available_displays).
Proof.
  rewrite off_loop_items.
  - rewrite assigned_groups. f_equal. f_equal.
    apply select_from_ext. intros d.
    now rewrite named_contains, mentioned_first.
  - rewrite assigned_groups. unfold Py.dict_keys. rewrite map_map. simpl.
    intros j Hj. apply in_map_iff in Hj. destruct Hj as (m & Hm & _).
    discriminate.
Qed.

Lemma dict_get_app (a b : ArgGroups) (k : key) :
  Py.dict_get key_eqb (a ++ b) k
  = match Py.dict_get key_eqb a k with
    | Some v => Some v
    | None => Py.dict_get key_eqb b k
    end.
Proof.
  induction a as [|[k' v'] a IH]; simpl; [reflexivity|].
  now destruct (key_eqb k k').
Qed.

Lemma dict_get_named (g : string -> list string) (ks : list string) (n : string) :
  Py.dict_get key_eqb (map (fun m => (KName m, g m)) ks) (KName n)
  = if existsb (String.eqb n) ks then Some (g n) else None.
Proof.
  induction ks as [|m ks IH]; simpl; [reflexivity|].
  destruct (String.eqb n m) eqn:E; simpl; [|exact IH].
  apply String.eqb_eq in E. now subst.
Qed.

Lemma dict_get_named_device (g : string -> list string) (ks : list string)
    (i : nat) :
  Py.dict_get key_eqb (map (fun m => (KName m, g m)) ks) (KDevice i) = None.
Proof. induction ks as [|m ks IH]; simpl; [reflexivity | exact IH]. Qed.

Lemma dict_get_items_name (l : list (nat * OutputDevice)) (n : string) :
  Py.dict_get key_eqb (map off_item l) (KName n) = None.
Proof. induction l as [|x l IH]; simpl; [reflexivity | exact IH]. Qed.

Lemma dict_get_items_before (p : OutputDevice -> bool)
    (displays : list OutputDevice) :
  forall n idx, idx < n ->
    Py.dict_get key_eqb (map off_item (select_from p n displays))
      (KDevice idx) = None.
Proof.
  induction displays as [|x l IH]; intros n idx Hn; simpl; [reflexivity|].
  destruct (p x); simpl.
  - destruct (Nat.eqb_spec idx n); [lia|]. apply IH. lia.
  - apply IH. lia.
Qed.

Lemma dict_get_items_device (p : OutputDevice -> bool)
    (displays : list OutputDevice) :
  forall idx i d,
    nth_error displays i = Some d ->
    Py.dict_get key_eqb (map off_item (select_from p idx displays))
      (KDevice (idx + i))
    = if p d then Some (off_args d) else None.
Proof.
  induction displays as [|d0 rest IH]; intros idx i d Hnth.
  - destruct i; discriminate.
  - destruct i as [|i]; simpl in Hnth.
    + injection Hnth as ->. rewrite Nat.add_0_r. simpl.
      destruct (p d); simpl.
      * now rewrite Nat.eqb_refl.
      * apply dict_get_items_before. lia.
    + replace (idx + S i) with (S idx + i) by lia.
      cbn [select_from]. destruct (p d0).
      * cbn [map]. unfold off_item at 1. cbn [fst snd Py.dict_get key_eqb].
        destruct (Nat.eqb_spec (S idx + i) idx); [lia|].
        now apply IH.
      * now apply IH.
Qed.

(** X6: in the mapping that the builder returns, every entry of the setup
    is found under its output name, and what is found is the group of
    the last entry of the setup for that name: a later entry overwrites
    an earlier one. *)
Theorem entries_are_found_by_name (available_displays : list OutputDevice)
    (display_setup : list OutputSpec) (t t' : trace) (groups : ArgGroups) :
  build_arg_groups available_displays display_setup t = (Ok (inr groups), t') ->
  forall s, In s display_setup ->
    exists o last,
      output s = Some o /\
      last_entry o display_setup = Some last /\
      output last = Some o /\
      Py.dict_get key_eqb groups (KName o) = Some (entry_args last).
Proof.
  intros H s Hin. apply build_arg_groups_ok in H.
  destruct H as (Hk & _ & -> & _).
  assert (Hsome : forall x, In x display_setup -> exists o, output x = Some o).
  { intros x Hx. unfold all_known in Hk. rewrite forallb_forall in Hk.
    specialize (Hk x Hx). destruct (output x) as [o|]; [now exists o|].
    exfalso. clear -Hk. induction available_displays; simpl in Hk; auto;
      discriminate. }
  destruct (Hsome s Hin) as [o Ho]. exists o.
  destruct (last_entry o display_setup) as [last|] eqn:El.
  - exists last. unfold last_entry in El.
    destruct (find_some _ _ El) as [Hlin Hleq].
    apply in_rev in Hlin. destruct (Hsome last Hlin) as [o' Ho'].
    rewrite Ho' in Hleq. simpl in Hleq. apply String.eqb_eq in Hleq. subst o'.
    repeat split; trivial.
    rewrite built_items, dict_get_app, dict_get_named.
    assert (Hex : existsb (String.eqb o)
                    (first_occurrences (setup_names display_setup)) = true).
    { apply existsb_eqb_In, first_occurrences_In. unfold setup_names.
      apply in_map_iff. exists s. now rewrite Ho. }
    rewrite Hex. unfold group_of, last_entry. now rewrite El.
  - exfalso. unfold last_entry in El.
    pose proof (find_none _ _ El s (proj1 (in_rev _ _) Hin)) as Hf.
    cbv beta in Hf. rewrite Ho in Hf. simpl in Hf.
    rewrite String.eqb_refl in Hf. discriminate.
Qed.

Lemma entries_are_found_by_name_witness :
  build_arg_groups Scenario.probed Scenario.with_vga []
  = (Ok (inr Scenario.with_vga_groups),
     [stderr_line "warning: VGA-1 is not connected"]) /\
  In (mkOutputSpec (Some "eDP-1") None None) Scenario.with_vga /\
  exists o last,
    output (mkOutputSpec (Some "eDP-1") None None) = Some o /\
    last_entry o Scenario.with_vga = Some last /\
    output last = Some o /\
    Py.dict_get key_eqb Scenario.with_vga_groups (KName o)
    = Some (entry_args last).
Proof.
  split; [exact with_vga_built|].
  split; [simpl; tauto|].
  apply (entries_are_found_by_name _ _ _ _ _ with_vga_built).
  simpl. tauto.
Defined.

(** X7: in the mapping that the builder returns, every probed display is
    in exactly one group.  A display that the setup names has the
    activation group of its name and no group under its own record; a
    display that the setup does not name has the group
    --output <name> --off under its own record (its position in the
    probed list) and nothing under its name. *)
Theorem every_display_has_one_group (available_displays : list OutputDevice)
    (display_setup : list OutputSpec) (t t' : trace) (groups : ArgGroups) :
  build_arg_groups available_displays display_setup t = (Ok (inr groups), t') ->
  forall i d, nth_error available_displays i = Some d ->
    if mentioned display_setup d
    then Py.dict_get key_eqb groups (KName (name d))
         = Some (group_of display_setup (name d)) /\
         Py.dict_get key_eqb groups (KDevice i) = None
    else Py.dict_get key_eqb groups (KName (name d)) = None /\
         Py.dict_get key_eqb groups (KDevice i)
         = Some ["--output"; name d; "--off"].
Proof.
  intros H i d Hnth. apply build_arg_groups_ok in H.
  destruct H as (_ & _ & -> & _).
  rewrite built_items, !dict_get_app, dict_get_named, dict_get_named_device,
    dict_get_items_name, mentioned_first.
  pose proof (dict_get_items_device
                (fun d => negb (mentioned display_setup d))
                available_displays 0 i d Hnth) as Hdev.
  simpl in Hdev. rewrite Hdev.
  now destruct (mentioned display_setup d).
Qed.

Lemma every_display_has_one_group_witness :
  build_arg_groups Scenario.probed Scenario.with_vga []
  = (Ok (inr Scenario.with_vga_groups),
     [stderr_line "warning: VGA-1 is not connected"]) /\
  nth_error Scenario.probed 1 = Some (mkOutputDevice "HDMI-1" true []) /\
  Py.dict_get key_eqb Scenario.with_vga_groups (KName "HDMI-1") = None /\
  Py.dict_get key_eqb Scenario.with_vga_groups (KDevice 1)
  = Some ["--output"; "HDMI-1"; "--off"].
Proof.
  split; [exact with_vga_built|].
  split; [reflexivity|].
  exact (every_display_has_one_group _ _ _ _ _ with_vga_built 1
           (mkOutputDevice "HDMI-1" true []) eq_refl).
Defined.

(** ** The ways through set_display_setup *)

Lemma before_query_runs (t : trace) (setup_name setups_file : string) :
  filter is_run (before_query t setup_name setups_file) = filter is_run t.
Proof.
  unfold before_query. rewrite filter_app. simpl. now rewrite app_nil_r.
Qed.

Lemma xrandr_args_head (arg_groups : ArgGroups) (dry_run : bool) :
  exists rest, xrandr_args arg_groups dry_run = "xrandr" :: rest.
Proof. unfold xrandr_args. simpl. now eexists. Qed.

Section Paths.
Variable load_json : string -> result Setups.
Variable run_process : trace -> list string -> option (Z * string).
Variables setup_name setups_file : string.
Variable dry_run : bool.
Variable t : trace.

Lemma path_load_fails (e : exn) :
  load_json setups_file = Raise e ->
  set_display_setup load_json run_process setup_name setups_file dry_run t
  = (Raise e, t ++ [EvOpen setups_file]).
Proof.
  intros Hload.
  unfold set_display_setup, load_display_setups, bind, emit.
  now rewrite Hload.
Qed.

Lemma path_no_setup (setups : Setups) :
  load_json setups_file = Ok setups ->
  Py.dict_get String.eqb setups setup_name = None ->
  set_display_setup load_json run_process setup_name setups_file dry_run t
  = (Ok (RetCode 1),
     t ++ [EvOpen setups_file;
           stderr_line ("Invalid display setup name: " ++ setup_name)]).
Proof.
  intros Hload Hget.
  unfold set_display_setup, load_display_setups, bind, emit.
  rewrite Hload. unfold ret at 1. rewrite Hget.
  unfold print_err, emit, ret. now rewrite <- app_assoc.
Qed.

Lemma path_query (setups : Setups) (display_setup : list OutputSpec) :
  load_json setups_file = Ok setups ->
  Py.dict_get String.eqb setups setup_name = Some display_setup ->
  set_display_setup load_json run_process setup_name setups_file dry_run t
  = bind (get_available_displays run_process)
      (fun available_displays =>
         r <- build_arg_groups available_displays display_setup ;;
         match r with
         | inl code => ret (RetCode code)
         | inr arg_groups =>
             let argv := xrandr_args arg_groups dry_run in
             (if dry_run then print ("command: " ++ Py.join " " argv)
              else ret tt) ;;;
             proc <- subprocess_run run_process argv false ;;
             ret (RetProcess proc)
         end)
      (before_query t setup_name setups_file).
Proof.
  intros Hload Hget.
  unfold set_display_setup, load_display_setups, bind at 1 2, emit.
  rewrite Hload. unfold ret at 1. rewrite Hget.
  unfold bind at 1, print, emit. unfold before_query.
  now rewrite <- app_assoc.
Qed.

Lemma path_no_launch (setups : Setups) (display_setup : list OutputSpec) :
  load_json setups_file = Ok setups ->
  Py.dict_get String.eqb setups setup_name = Some display_setup ->
  run_process (before_query t setup_name setups_file) ["xrandr"] = None ->
  set_display_setup load_json run_process setup_name setups_file dry_run t
  = (Raise OSError,
     before_query t setup_name setups_file ++ [EvRun ["xrandr"]]).
Proof.
  intros Hload Hget Hrun. rewrite (path_query _ _ Hload Hget).
  unfold bind at 1, get_available_displays, bind at 1, subprocess_run.
  now rewrite Hrun.
Qed.

Lemma path_bad_query (setups : Setups) (display_setup : list OutputSpec)
    (rc : Z) (out : string) (e : exn) :
  load_json setups_file = Ok setups ->
  Py.dict_get String.eqb setups setup_name = Some display_setup ->
  run_process (before_query t setup_name setups_file) ["xrandr"]
  = Some (rc, out) ->
  parse_displays out = Raise e ->
  set_display_setup load_json run_process setup_name setups_file dry_run t
  = (Raise e,
     before_query t setup_name setups_file ++ [EvRun ["xrandr"]]).
Proof.
  intros Hload Hget Hrun Hparse. rewrite (path_query _ _ Hload Hget).
  unfold bind at 1, get_available_displays, bind at 1, subprocess_run.
  rewrite Hrun. cbn [stdout]. now rewrite Hparse.
Qed.

(** What is known when [set_display_setup] returns the result of the
    apply invocation. *)
Lemma path_applied (proc : CompletedProcess) (t' : trace) :
  set_display_setup load_json run_process setup_name setups_file dry_run t
  = (Ok (RetProcess proc), t') ->
  exists setups display_setup rc out available_displays groups,
    load_json setups_file = Ok setups /\
    Py.dict_get String.eqb setups setup_name = Some display_setup /\
    run_process (before_query t setup_name setups_file) ["xrandr"]
    = Some (rc, out) /\
    parse_displays out = Ok available_displays /\
    (forall h, build_arg_groups available_displays display_setup h
               = (Ok (inr groups),
                  h ++ warnings available_displays display_setup)) /\
    args proc = xrandr_args groups dry_run /\
    stdout proc = None /\
    t' = ((before_query t setup_name setups_file ++ [EvRun ["xrandr"]])
          ++ warnings available_displays display_setup)
         ++ (if dry_run
             then [stdout_line ("command: " ++ Py.join " " (args proc))]
             else [])
         ++ [EvRun (args proc)].
Proof.
  intros H.
  destruct (load_json setups_file) as [setups|e] eqn:Hload;
    [|rewrite (path_load_fails _ Hload) in H; discriminate].
  destruct (Py.dict_get String.eqb setups setup_name)
    as [display_setup|] eqn:Hget;
    [|rewrite (path_no_setup _ Hload Hget) in H; discriminate].
  destruct (run_process (before_query t setup_name setups_file) ["xrandr"])
    as [[rc out]|] eqn:Hrun;
    [|rewrite (path_no_launch _ _ Hload Hget Hrun) in H; discriminate].
  destruct (parse_displays out) as [available_displays|e] eqn:Hparse;
    [|rewrite (path_bad_query _ _ _ _ _ Hload Hget Hrun Hparse) in H;
      discriminate].
  destruct (build_arg_groups_emits available_displays display_setup)
    as (r & msgs & Hbuild & Hmsgs).
  rewrite (set_display_setup_built _ _ _ _ dry_run _ _ _ _ _ _ _ _
             Hload Hget Hrun Hparse Hbuild) in H.
  destruct r as [code|groups]; [discriminate|].
  destruct (build_arg_groups_ok _ _ _ _ _ (Hbuild [])) as (_ & _ & _ & Hw).
  simpl in Hw. subst msgs.
  cbv zeta in H. unfold bind, subprocess_run in H.
  match type of H with
  | context [run_process ?h ?a] =>
      destruct (run_process h a) as [[rc' out']|] eqn:Happly;
      [|discriminate]
  end.
  unfold ret in H. injection H as <- <-.
  exists setups, display_setup, rc, out, available_displays, groups.
  cbn [args stdout]. repeat split; trivial.
  destruct dry_run; [now rewrite <- !app_assoc | now rewrite app_nil_l].
Qed.

(** The processes of one call, whatever its outcome. *)
Lemma path_runs (r : result retval) (t' : trace) :
  set_display_setup load_json run_process setup_name setups_file dry_run t
  = (r, t') ->
  exists rs,
    filter is_run t' = filter is_run t ++ rs /\
    (rs = [] \/ rs = [EvRun ["xrandr"]] \/
     exists rest, rs = [EvRun ["xrandr"]; EvRun ("xrandr" :: rest)]).
Proof.
  intros H.
  destruct (load_json setups_file) as [setups|e] eqn:Hload.
  2:{ rewrite (path_load_fails _ Hload) in H. injection H as <- <-.
      exists []. split; [|now left].
      rewrite filter_app. reflexivity. }
  destruct (Py.dict_get String.eqb setups setup_name)
    as [display_setup|] eqn:Hget.
  2:{ rewrite (path_no_setup _ Hload Hget) in H. injection H as <- <-.
      exists []. split; [|now left].
      rewrite filter_app. reflexivity. }
  destruct (run_process (before_query t setup_name setups_file) ["xrandr"])
    as [[rc out]|] eqn:Hrun.
  2:{ rewrite (path_no_launch _ _ Hload Hget Hrun) in H. injection H as <- <-.
      exists [EvRun ["xrandr"]]. split; [|right; now left].
      now rewrite filter_app, before_query_runs. }
  destruct (parse_displays out) as [available_displays|e] eqn:Hparse.
  2:{ rewrite (path_bad_query _ _ _ _ _ Hload Hget Hrun Hparse) in H.
      injection H as <- <-.
      exists [EvRun ["xrandr"]]. split; [|right; now left].
      now rewrite filter_app, before_query_runs. }
  destruct (build_arg_groups_emits available_displays display_setup)
    as (b & msgs & Hbuild & Hmsgs).
  rewrite (set_display_setup_built _ _ _ _ dry_run _ _ _ _ _ _ _ _
             Hload Hget Hrun Hparse Hbuild) in H.
  destruct b as [code|groups].
  - injection H as <- <-. exists [EvRun ["xrandr"]]. split; [|right; now left].
    rewrite !filter_app, before_query_runs, Hmsgs. simpl.
    now rewrite app_nil_r.
  - cbv zeta in H. unfold bind, subprocess_run in H.
    destruct (xrandr_args_head groups dry_run) as [rest Hargs].
    exists [EvRun ["xrandr"]; EvRun ("xrandr" :: rest)].
    split; [|right; right; now exists rest].
    rewrite <- Hargs.
    match type of H with
    | context [run_process ?h ?a] =>
        destruct (run_process h a) as [[rc' out']|]
    end; unfold ret in H; injection H as <- <-;
      destruct dry_run; rewrite !filter_app, before_query_runs, Hmsgs; simpl;
        rewrite ?app_nil_r; now rewrite <- app_assoc.
Qed.

End Paths.

(** ** Runs of the program *)

Lemma dict_get_none (setups : Setups) (n : string) :
  Py.dict_get String.eqb setups n = None <-> ~ In n (Py.dict_keys setups).
Proof.
  induction setups as [|[k v] r IH]; simpl; [tauto|].
  destruct (String.eqb_spec n k) as [->|Hne].
  - split; [discriminate | intros H; elim H; now left].
  - rewrite IH. split.
    + intros H [Hk|Hin]; [now elim Hne | now elim H].
    + intros H Hin. apply H. now right.
Qed.

(** X8: when the setups file loads and does not define the given setup
    name, [set_display_setup] prints "Invalid display setup name: <name>"
    to standard error and returns 1 without running any process, not even
    the query. *)
Theorem unknown_setup_runs_nothing
    (load_json : string -> result Setups)
    (run_process : trace -> list string -> option (Z * string))
    (setup_name setups_file : string) (dry_run : bool) (t : trace)
    (setups : Setups) :
  load_json setups_file = Ok setups ->
  ~ In setup_name (Py.dict_keys setups) ->
  set_display_setup load_json run_process setup_name setups_file dry_run t
  = (Ok (RetCode 1),
     t ++ [EvOpen setups_file;
           stderr_line ("Invalid display setup name: " ++ setup_name)]) /\
  filter is_run
    (snd (set_display_setup load_json run_process setup_name setups_file
            dry_run t))
  = filter is_run t.
Proof.
  intros Hload Hno. apply dict_get_none in Hno.
  rewrite (path_no_setup _ _ _ _ _ _ _ Hload Hno). split; [reflexivity|].
  simpl. rewrite filter_app. simpl. now rewrite app_nil_r.
Qed.

Lemma unknown_setup_runs_nothing_witness :
  Scenario.two_files "displaysetups.json" = Ok Scenario.two_setups /\
  ~ In "work" (Py.dict_keys Scenario.two_setups) /\
  set_display_setup Scenario.two_files Scenario.the_system
    "work" "displaysetups.json" false []
  = (Ok (RetCode 1),
     [] ++ [EvOpen "displaysetups.json";
            stderr_line "Invalid display setup name: work"]).
Proof.
  assert (Hno : ~ In "work" (Py.dict_keys Scenario.two_setups)).
  { simpl. intros [H|[H|[H|[]]]]; discriminate. }
  split; [reflexivity|]. split; [exact Hno|].
  exact (proj1 (unknown_setup_runs_nothing Scenario.two_files
                  Scenario.the_system "work" "displaysetups.json" false []
                  Scenario.two_setups eq_refl Hno)).
Defined.

(** X9: when the setups file cannot be opened or decoded, [main] raises
    the exception of the load in both modes: nothing is printed, no
    process is run, and the exit status is 1. *)
Theorem unreadable_file_stops_main
    (load_json : string -> result Setups)
    (run_process : trace -> list string -> option (Z * string))
    (ns : Namespace) (t : trace) (e : exn) :
  load_json (ns_jsonfile ns) = Raise e ->
  main load_json run_process ns t = (Raise e, t ++ [EvOpen (ns_jsonfile ns)]) /\
  exit_status (fst (main load_json run_process ns t)) = 1%Z.
Proof.
  intros Hload.
  assert (H : main load_json run_process ns t
              = (Raise e, t ++ [EvOpen (ns_jsonfile ns)])).
  { unfold main. destruct (ns_setup ns) as [setup|].
    - unfold bind at 1. now rewrite (path_load_fails _ _ _ _ _ _ _ Hload).
    - unfold list_display_setups, load_display_setups, bind, emit.
      now rewrite Hload. }
  rewrite H. now split.
Qed.

Lemma unreadable_file_stops_main_witness :
  (fun _ : string => Raise OSError) (ns_jsonfile (Scenario.namespace None))
  = (Raise OSError : result Setups) /\
  main (fun _ => Raise OSError) Scenario.the_system (Scenario.namespace None) []
  = (Raise OSError, [] ++ [EvOpen "displaysetups.json"]).
Proof.
  split; [reflexivity|].
  exact (proj1 (unreadable_file_stops_main (fun _ => Raise OSError)
                  Scenario.the_system (Scenario.namespace None) [] OSError
                  eq_refl)).
Defined.

(** X10: whatever the files, the system and the arguments, and whether it
    returns or raises, one run of [main] starts no process, or the query
    xrandr alone, or the query followed by one more xrandr command; it
    never starts another program and never more than two processes. *)
Theorem main_runs_only_xrandr
    (load_json : string -> result Setups)
    (run_process : trace -> list string -> option (Z * string))
    (ns : Namespace) (t : trace) :
  exists rs,
    filter is_run (snd (main load_json run_process ns t))
    = filter is_run t ++ rs /\
    (rs = [] \/ rs = [EvRun ["xrandr"]] \/
     exists rest, rs = [EvRun ["xrandr"]; EvRun ("xrandr" :: rest)]).
Proof.
  unfold main. destruct (ns_setup ns) as [setup|].
  - destruct (set_display_setup load_json run_process setup (ns_jsonfile ns)
                (ns_dry_run ns) t) as [r t'] eqn:E.
    destruct (path_runs _ _ _ _ _ _ _ _ E) as (rs & Hrs & Hshape).
    exists rs. split; [|exact Hshape].
    unfold bind. rewrite E. now destruct r.
  - exists []. split; [|now left].
    unfold list_display_setups, load_display_setups, bind, emit, print, emit.
    destruct (load_json (ns_jsonfile ns)); cbn;
      rewrite ?filter_app; simpl; now rewrite ?app_nil_r.
Qed.

(** X11: when [set_display_setup] returns the result of the apply
    invocation, the events of the call are, in this order: the file is
    opened, "Activating display setup <name>" is printed, the query is
    run, the warnings are printed, in dry-run mode the line
    "command: " followed by the arguments joined by spaces is printed,
    and the command is run.  In dry-run mode the command ends with
    --dryrun, and the output of the command is not captured. *)
Theorem successful_apply_trace
    (load_json : string -> result Setups)
    (run_process : trace -> list string -> option (Z * string))
    (setup_name setups_file : string) (dry_run : bool) (t t' : trace)
    (proc : CompletedProcess) :
  set_display_setup load_json run_process setup_name setups_file dry_run t
  = (Ok (RetProcess proc), t') ->
  exists setups display_setup rc out available_displays,
    load_json setups_file = Ok setups /\
    Py.dict_get String.eqb setups setup_name = Some display_setup /\
    run_process (before_query t setup_name setups_file) ["xrandr"]
    = Some (rc, out) /\
    parse_displays out = Ok available_displays /\
    t' = t ++ [EvOpen setups_file;
               stdout_line ("Activating display setup " ++ setup_name);
               EvRun ["xrandr"]]
           ++ warnings available_displays display_setup
           ++ (if dry_run
               then [stdout_line ("command: " ++ Py.join " " (args proc))]
               else [])
           ++ [EvRun (args proc)] /\
    (if dry_run then exists front, args proc = front ++ ["--dryrun"]
     else True) /\
    stdout proc = None.
Proof.
  intros H. apply path_applied in H.
  destruct H as (setups & display_setup & rc & out & available & groups
                 & Hload & Hget & Hrun & Hparse & _ & Hargs & Hout & ->).
  exists setups, display_setup, rc, out, available.
  repeat (split; [assumption|]).
  split; [|split; [|exact Hout]].
  - unfold before_query. now rewrite <- !app_assoc.
  - destruct dry_run; [|exact I]. rewrite Hargs. unfold xrandr_args.
    now eexists.
Qed.

Lemma successful_apply_trace_witness :
  exists proc t',
    set_display_setup Scenario.the_file Scenario.the_system
      "home" "displaysetups.json" true []
    = (Ok (RetProcess proc), t') /\
    exists setups display_setup rc out available_displays,
      Scenario.the_file "displaysetups.json" = Ok setups /\
      Py.dict_get String.eqb setups "home" = Some display_setup /\
      Scenario.the_system (before_query [] "home" "displaysetups.json")
        ["xrandr"] = Some (rc, out) /\
      parse_displays out = Ok available_displays /\
      t' = [] ++ [EvOpen "displaysetups.json";
                  stdout_line ("Activating display setup " ++ "home");
                  EvRun ["xrandr"]]
              ++ warnings available_displays display_setup
              ++ [stdout_line ("command: " ++ Py.join " " (args proc))]
              ++ [EvRun (args proc)] /\
      (exists front, args proc = front ++ ["--dryrun"]) /\
      stdout proc = None.
Proof.
  eexists _, _. split; [exact scenario_home_dry_run|].
  exact (successful_apply_trace Scenario.the_file Scenario.the_system
           "home" "displaysetups.json" true [] _ _ scenario_home_dry_run).
Defined.




(** ** The printed command line *)

Lemma string_app_assoc (a b c : string) : ((a ++ b) ++ c = a ++ (b ++ c))%string.
Proof. induction a as [|x a IH]; simpl; [reflexivity | now rewrite IH]. Qed.

Lemma string_app_nil_r (a : string) : (a ++ EmptyString = a)%string.
Proof. induction a as [|x a IH]; simpl; [reflexivity | now rewrite IH]. Qed.

(** Reading a run of characters that are not whitespace. *)
Lemma split_from_run (tok : string) :
  forall cur s,
    all_chars nonspace tok = true ->
    Py.split_from cur (tok ++ s) = Py.split_from (cur ++ tok) s.
Proof.
  induction tok as [|c r IH]; intros cur s Hr; simpl.
  - now rewrite string_app_nil_r.
  - simpl in Hr. apply andb_true_iff in Hr. destruct Hr as [Hc Hr].
    unfold nonspace in Hc. apply negb_true_iff in Hc. rewrite Hc.
    rewrite IH; [|exact Hr]. unfold Py.snoc.
    now rewrite string_app_assoc.
Qed.

(** Splitting what [' '.join] made of tokens gives the tokens back. *)
Lemma split_join (l : list string) :
  Forall (fun tok => is_token tok = true) l ->
  Py.split (Py.join " " l) = l.
Proof.
  unfold Py.split, Py.join.
  induction 1 as [|a l Ha Hl IH]; [reflexivity|].
  unfold is_token in Ha. apply andb_true_iff in Ha. destruct Ha as [Hne Ha].
  apply negb_true_iff in Hne.
  destruct l as [|b l].
  - simpl. rewrite <- (string_app_nil_r a) at 1.
    rewrite split_from_run; [|exact Ha]. simpl. now rewrite Hne.
  - change (String.concat " " (a :: b :: l))
      with (a ++ " " ++ String.concat " " (b :: l))%string.
    rewrite split_from_run; [|exact Ha].
    cbn [append]. cbn [Py.split_from].
    change (Py.isspace " ") with true. cbn iota.
    rewrite Hne. now rewrite IH.
Qed.

Lemma uint_nonspace (d : Decimal.uint) :
  all_chars nonspace (NilEmpty.string_of_uint d) = true.
Proof. induction d; simpl; trivial. Qed.

Lemma str_of_int_nonspace (n : Z) :
  all_chars nonspace (Py.str_of_int n) = true.
Proof.
  unfold Py.str_of_int, NilZero.string_of_int, NilZero.string_of_uint.
  destruct (Z.to_int n) as [d|d]; destruct d; simpl; trivial;
    apply uint_nonspace.
Qed.

Lemma fmt_pair_token (p : Z * Z) : is_token (fmt_pair p) = true.
Proof.
  unfold is_token, fmt_pair. apply andb_true_iff. split.
  - destruct (Py.str_of_int (fst p)); reflexivity.
  - rewrite !all_chars_app, !str_of_int_nonspace. reflexivity.
Qed.

Lemma entry_args_tokens (s : OutputSpec) :
  is_token (str_output (output s)) = true ->
  Forall (fun tok => is_token tok = true) (entry_args s).
Proof.
  intros Ho. unfold entry_args, display_args.
  repeat constructor; trivial.
  - apply fmt_pair_token.
  - destruct (mode s); repeat constructor. apply fmt_pair_token.
Qed.

Lemma Forall_concat {A} (P : A -> Prop) (ll : list (list A)) :
  Forall (Forall P) ll -> Forall P (concat ll).
Proof.
  induction 1 as [|l ll Hl _ IH]; simpl; [constructor|].
  apply Forall_app. now split.
Qed.

(** The names of a setup that the builder accepts are names of probed
    displays. *)
Lemma known_names (available_displays : list OutputDevice)
    (display_setup : list OutputSpec) (s : OutputSpec) :
  all_known available_displays display_setup = true ->
  In s display_setup ->
  exists d, In d available_displays /\ output s = Some (name d).
Proof.
  intros Hk Hin. unfold all_known in Hk. rewrite forallb_forall in Hk.
  specialize (Hk s Hin). apply existsb_exists in Hk.
  destruct Hk as (d & Hd & Hn). exists d. split; [exact Hd|].
  destruct (output s) as [o|]; [|discriminate].
  simpl in Hn. apply String.eqb_eq in Hn. now subst.
Qed.

Lemma built_tokens (available_displays : list OutputDevice)
    (display_setup : list OutputSpec) :
  Forall (fun d => is_token (name d) = true) available_displays ->
  all_known available_displays display_setup = true ->
  Forall (fun tok => is_token tok = true)
    (concat (activation_groups display_setup
             ++ off_groups available_displays display_setup)).
Proof.
  intros Hnames Hk. rewrite Forall_forall in Hnames.
  apply Forall_concat, Forall_app. split.
  - unfold activation_groups. apply Forall_forall. intros g Hg.
    apply in_map_iff in Hg. destruct Hg as (n & <- & _).
    unfold group_of, last_entry.
    destruct (find _ (rev display_setup)) as [s|] eqn:E; [|constructor].
    apply find_some in E. destruct E as [Hin _]. apply in_rev in Hin.
    apply entry_args_tokens.
    destruct (known_names _ _ _ Hk Hin) as (d & Hd & ->). simpl.
    now apply Hnames.
  - unfold off_groups. apply Forall_forall. intros g Hg.
    apply in_map_iff in Hg. destruct Hg as (d & <- & Hd).
    apply filter_In in Hd. destruct Hd as [Hd _].
    unfold off_args. repeat constructor. now apply Hnames.
Qed.

(** X13: the command line that a dry run prints can be read back: when
    the probed list is what the prober made of a query output, splitting
    the arguments joined by spaces at whitespace gives exactly the
    arguments of the command, for every mapping that the builder
    returns. *)
Theorem printed_command_reads_back (out : string)
    (available_displays : list OutputDevice)
    (display_setup : list OutputSpec) (t t' : trace) (groups : ArgGroups)
    (dry_run : bool) :
  parse_displays out = Ok available_displays ->
  build_arg_groups available_displays display_setup t = (Ok (inr groups), t') ->
  Py.split (Py.join " " (xrandr_args groups dry_run))
  = xrandr_args groups dry_run.
Proof.
  intros Hparse Hbuild. apply split_join.
  apply parse_displays_blocks in Hparse.
  destruct Hparse as (blocks & _ & Hb).
  destruct (blocks_names _ _ Hb) as [_ Hnames].
  apply build_arg_groups_ok in Hbuild.
  destruct Hbuild as (Hk & _ & -> & _).
  unfold xrandr_args. rewrite built_values.
  apply Forall_app. split; [apply Forall_app; split|].
  - repeat constructor.
  - now apply built_tokens.
  - destruct dry_run; repeat constructor.
Qed.

Lemma printed_command_reads_back_witness :
  parse_displays Scenario.query_text = Ok Scenario.probed /\
  build_arg_groups Scenario.probed Scenario.with_vga []
  = (Ok (inr Scenario.with_vga_groups),
     [stderr_line "warning: VGA-1 is not connected"]) /\
  Py.split (Py.join " " (xrandr_args Scenario.with_vga_groups true))
  = xrandr_args Scenario.with_vga_groups true.
Proof.
  assert (Hparse : parse_displays Scenario.query_text = Ok Scenario.probed)
    by (vm_compute; reflexivity).
  split; [exact Hparse|]. split; [exact with_vga_built|].
  exact (printed_command_reads_back _ _ _ _ _ _ true Hparse with_vga_built).
Defined.

(** ** The tokens of positions and modes *)

Lemma split_on_from_run (sep : ascii) (tok : string) :
  forall cur s,
    all_chars (fun c => negb (Ascii.eqb c sep)) tok = true ->
    Py.split_on_from sep cur (tok ++ s) = Py.split_on_from sep (cur ++ tok) s.
Proof.
  induction tok as [|c r IH]; intros cur s Hr; simpl.
  - now rewrite string_app_nil_r.
  - simpl in Hr. apply andb_true_iff in Hr. destruct Hr as [Hc Hr].
    apply negb_true_iff in Hc. rewrite Hc.
    rewrite IH; [|exact Hr]. unfold Py.snoc.
    now rewrite string_app_assoc.
Qed.

Lemma uint_not_x (d : Decimal.uint) :
  all_chars not_x (NilEmpty.string_of_uint d) = true.
Proof. induction d; simpl; trivial. Qed.

Lemma str_of_int_not_x (n : Z) : all_chars not_x (Py.str_of_int n) = true.
Proof.
  unfold Py.str_of_int, NilZero.string_of_int, NilZero.string_of_uint.
  destruct (Z.to_int n) as [d|d]; destruct d; simpl; trivial;
    apply uint_not_x.
Qed.

Lemma to_int_nonnil (n : Z) :
  Z.to_int n <> Decimal.Pos Decimal.Nil /\
  Z.to_int n <> Decimal.Neg Decimal.Nil.
Proof.
  destruct n; simpl; split; try discriminate; intros [= H];
    now apply Unsigned.to_uint_nonnil in H.
Qed.

Lemma str_of_int_inj (a b : Z) : Py.str_of_int a = Py.str_of_int b -> a = b.
Proof.
  intros H. unfold Py.str_of_int in H. apply DecimalZ.to_int_inj.
  destruct (to_int_nonnil a) as [A1 A2], (to_int_nonnil b) as [B1 B2].
  pose proof (NilZero.isi _ A1 A2) as Ha.
  pose proof (NilZero.isi _ B1 B2) as Hb.
  rewrite H in Ha. congruence.
Qed.

Lemma fmt_pair_split (p : Z * Z) :
  Py.split_on "x" (fmt_pair p)
  = [Py.str_of_int (fst p); Py.str_of_int (snd p)].
Proof.
  unfold Py.split_on, fmt_pair.
  rewrite split_on_from_run; [|apply str_of_int_not_x].
  cbn [append Py.split_on_from]. change (Ascii.eqb "x" "x") with true.
  cbn iota. f_equal.
  rewrite <- (string_app_nil_r (Py.str_of_int (snd p))) at 1.
  rewrite split_on_from_run; [|apply str_of_int_not_x]. reflexivity.
Qed.

(** X14: the token <a>x<b> that the builder writes for a position or a
    mode is read back by the split on 'x' that the prober applies to mode
    tokens: it gives the decimal numerals of a and b; so two pairs of
    integers with the same token are the same pair. *)
Theorem pair_token_reads_back (p q : Z * Z) :
  Py.split_on "x" (fmt_pair p)
  = [Py.str_of_int (fst p); Py.str_of_int (snd p)] /\
  (fmt_pair p = fmt_pair q -> p = q).
Proof.
  split; [apply fmt_pair_split|].
  intros H. pose proof (fmt_pair_split p) as Hp.
  rewrite H, fmt_pair_split in Hp. injection Hp as H1 H2.
  apply str_of_int_inj in H1, H2. destruct p, q; simpl in *. congruence.
Qed.

Lemma pair_token_reads_back_witness :
  Py.split_on "x" (fmt_pair (1920, -200)%Z) = ["1920"; "-200"] /\
  (fmt_pair (1920, -200)%Z = fmt_pair (1920, -200)%Z ->
   (1920, -200)%Z = (1920, -200)%Z).
Proof.
  exact (pair_token_reads_back (1920, -200)%Z (1920, -200)%Z).
Defined.

(** ** The listing *)

Lemma splitlines_from_run (tok : string) :
  forall cur s,
    all_chars not_linebreak tok = true ->
    Py.splitlines_from false cur (tok ++ s)
    = Py.splitlines_from false (cur ++ tok) s.
Proof.
  induction tok as [|c r IH]; intros cur s Hr; simpl.
  - now rewrite string_app_nil_r.
  - simpl in Hr. apply andb_true_iff in Hr. destruct Hr as [Hc Hr].
    unfold not_linebreak in Hc. apply negb_true_iff in Hc. rewrite Hc.
    rewrite IH; [|exact Hr]. unfold Py.snoc.
    now rewrite string_app_assoc.
Qed.

Lemma splitlines_join (names : list string) :
  names <> [] ->
  Forall (fun n => all_chars not_linebreak n = true) names ->
  Py.splitlines (Py.join Py.nl names ++ Py.nl) = names.
Proof.
  unfold Py.splitlines, Py.join. intros Hne Hall.
  induction Hall as [|a l Ha Hl IH]; [now elim Hne|].
  destruct l as [|b l].
  - simpl. rewrite splitlines_from_run; [|exact Ha]. reflexivity.
  - change (String.concat Py.nl (a :: b :: l))
      with (a ++ Py.nl ++ String.concat Py.nl (b :: l))%string.
    rewrite !string_app_assoc.
    rewrite splitlines_from_run; [|exact Ha].
    cbn [append Py.nl Py.splitlines_from andb].
    change (Py.islinebreak Py.LF) with true. cbn iota.
    change (Ascii.eqb Py.LF Py.CR) with false.
    f_equal. apply IH. discriminate.
Qed.

(** X15: when the setups file defines at least one setup and no setup
    name holds a line break, the last text that [list_display_setups]
    prints, cut at its line boundaries, is the list of the setup names in
    the order of the file: one name per line. *)
Theorem listing_reads_back
    (load_json : string -> result Setups)
    (setups_file : string) (t : trace) (setups : Setups) :
  load_json setups_file = Ok setups ->
  setups <> [] ->
  Forall (fun n => all_chars not_linebreak n = true) (Py.dict_keys setups) ->
  exists header text,
    list_display_setups load_json setups_file t
    = (Ok tt, t ++ [EvOpen setups_file; EvStdout header; EvStdout text]) /\
    Py.splitlines text = Py.dict_keys setups.
Proof.
  intros Hload Hne Hall.
  unfold list_display_setups, load_display_setups, bind, emit, print, emit.
  rewrite Hload. cbn.
  do 2 eexists. split.
  - rewrite <- !app_assoc. reflexivity.
  - apply splitlines_join; [|exact Hall].
    destruct setups; [now elim Hne | discriminate].
Qed.

Lemma listing_reads_back_witness :
  Scenario.two_files "displaysetups.json" = Ok Scenario.two_setups /\
  exists header text,
    list_display_setups Scenario.two_files "displaysetups.json" []
    = (Ok tt,
       [] ++ [EvOpen "displaysetups.json"; EvStdout header; EvStdout text]) /\
    Py.splitlines text = ["home"; "docked"; "none"].
Proof.
  split; [reflexivity|].
  apply (listing_reads_back Scenario.two_files "displaysetups.json" []
           Scenario.two_setups eq_refl).
  - discriminate.
  - repeat constructor.
Defined.

(** ** What the builder reads of the probed displays *)

Lemma off_loop_names (a1 : list OutputDevice) :
  forall a2 idx arg_groups,
    map name a1 = map name a2 ->
    off_loop idx a1 arg_groups = off_loop idx a2 arg_groups.
Proof.
  induction a1 as [|d1 a1 IH]; intros [|d2 a2] idx arg_groups H;
    try discriminate; [reflexivity|].
  simpl in H. injection H as Hn H. cbn [off_loop]. rewrite Hn.
  now apply IH.
Qed.

Lemma existsb_name_is (o : option string) (a1 : list OutputDevice) :
  forall a2, map name a1 = map name a2 ->
    existsb (name_is o) a1 = existsb (name_is o) a2.
Proof.
  induction a1 as [|d1 a1 IH]; intros [|d2 a2] H;
    try discriminate; [reflexivity|].
  simpl in H. injection H as Hn H. simpl. rewrite (IH _ H).
  f_equal. unfold name_is. now rewrite Hn.
Qed.

Lemma all_known_names (a1 a2 : list OutputDevice)
    (display_setup : list OutputSpec) :
  map name a1 = map name a2 ->
  all_known a1 display_setup = all_known a2 display_setup.
Proof.
  intros H. unfold all_known.
  induction display_setup as [|s rest IH]; simpl; [reflexivity|].
  now rewrite IH, (existsb_name_is _ _ _ H).
Qed.

(** ** The unknown output that is reported *)

Lemma setup_loop_first_unknown (available_displays : list OutputDevice)
    (before : list OutputSpec) (s : OutputSpec) (after : list OutputSpec) :
  all_known available_displays before = true ->
  existsb (name_is (output s)) available_displays = false ->
  forall arg_groups,
    emits (setup_loop available_displays (before ++ s :: after) arg_groups)
      (inl 2%Z)
      (warnings available_displays before
       ++ [stderr_line ("Output " ++ DQ ++ str_output (output s) ++ DQ
                        ++ " does not exist")]).
Proof.
  intros Hk Hs. induction before as [|b before IH]; intros arg_groups.
  - apply setup_loop_no_match. now apply filter_nil_existsb.
  - simpl in Hk. apply andb_true_iff in Hk. destruct Hk as [Hb Hk].
    destruct (filter (name_is (output b)) available_displays)
      as [|d0 more] eqn:E.
    + apply filter_nil_existsb in E. congruence.
    + intros t. cbn [app].
      rewrite (setup_loop_match _ _ _ _ _ _ E), (IH Hk).
      unfold warnings. simpl. rewrite E. now rewrite <- !app_assoc.
Qed.

(** X17: for a setup whose entries follow the documented format, when an
    entry names no probed display and every entry before it names one,
    the builder returns code 2 after printing the warnings of the entries
    before it and then the line Output "<name>" does not exist for that
    entry, where <name> is the output string of the entry, or None when
    the output of the entry is missing or null; the entries after it are
    not examined. *)
Theorem first_unknown_output_is_reported
    (available_displays : list OutputDevice)
    (before : list OutputSpec) (s : OutputSpec) (after : list OutputSpec) :
  all_known available_displays before = true ->
  existsb (name_is (output s)) available_displays = false ->
  emits (build_arg_groups available_displays (before ++ s :: after))
    (inl 2%Z)
    (warnings available_displays before
     ++ [stderr_line ("Output " ++ DQ ++ str_output (output s) ++ DQ
                      ++ " does not exist")]).
Proof.
  intros Hk Hs t. unfold build_arg_groups, bind.
  now rewrite (setup_loop_first_unknown _ _ _ _ Hk Hs).
Qed.

Lemma first_unknown_output_is_reported_witness :
  all_known Scenario.probed [mkOutputSpec (Some "VGA-1") None None] = true /\
  existsb (name_is (Some "DP-9")) Scenario.probed = false /\
  build_arg_groups Scenario.probed
    ([mkOutputSpec (Some "VGA-1") None None]
     ++ mkOutputSpec (Some "DP-9") None None
        :: [mkOutputSpec (Some "DP-7") None None]) []
  = (Ok (inl 2%Z),
     [] ++ (warnings Scenario.probed [mkOutputSpec (Some "VGA-1") None None]
            ++ [stderr_line ("Output " ++ DQ ++ "DP-9" ++ DQ
                             ++ " does not exist")])).
Proof.
  split; [reflexivity|]. split; [reflexivity|].
  exact (first_unknown_output_is_reported Scenario.probed
           [mkOutputSpec (Some "VGA-1") None None]
           (mkOutputSpec (Some "DP-9") None None)
           [mkOutputSpec (Some "DP-7") None None] eq_refl eq_refl []).
Defined.

(** ** The outputs that the command addresses *)

Lemma filter_split_perm {A} (f : A -> bool) (l : list A) :
  Permutation l (filter f l ++ filter (fun x => negb (f x)) l).
Proof.
  induction l as [|x l IH]; simpl; [constructor|].
  destruct (f x); simpl.
  - now constructor.
  - now apply Permutation_cons_app.
Qed.

Lemma NoDup_map_filter {A B} (g : A -> B) (f : A -> bool) (l : list A) :
  NoDup (map g l) -> NoDup (map g (filter f l)).
Proof.
  induction l as [|x l IH]; simpl; intros H; [constructor|].
  inversion H as [|? ? Hx Hl]; subst.
  destruct (f x); simpl; [|now apply IH].
  constructor; [|now apply IH].
  intros Hin. apply Hx. apply in_map_iff in Hin.
  destruct Hin as (y & Hy & Hyin). apply filter_In in Hyin.
  apply in_map_iff. exists y. now split.
Qed.

Lemma group_of_output (available_displays : list OutputDevice)
    (display_setup : list OutputSpec) (n : string) :
  all_known available_displays display_setup = true ->
  In n (setup_names display_setup) ->
  group_output (group_of display_setup n) = n.
Proof.
  intros Hk Hin. unfold group_of, last_entry.
  destruct (find _ (rev display_setup)) as [s|] eqn:E.
  - apply find_some in E. destruct E as [_ E]. apply String.eqb_eq in E.
    now subst.
  - exfalso. unfold setup_names in Hin. apply in_map_iff in Hin.
    destruct Hin as (s & Hs & Hin).
    pose proof (find_none _ _ E s (proj1 (in_rev _ _) Hin)) as Hf.
    cbv beta in Hf. rewrite Hs, String.eqb_refl in Hf. discriminate.
Qed.

(** X18: when the probed displays have pairwise distinct names, the
    groups of every mapping that the builder returns address each probed
    display exactly once: the output names that follow --output in the
    groups are a rearrangement of the probed names (the names of the
    setup first, then the other displays in probe order). *)
Theorem command_addresses_each_display_once
    (available_displays : list OutputDevice)
    (display_setup : list OutputSpec) (t t' : trace) (groups : ArgGroups) :
  NoDup (map name available_displays) ->
  build_arg_groups available_displays display_setup t = (Ok (inr groups), t') ->
  addressed groups
  = first_occurrences (setup_names display_setup)
    ++ map name (filter (fun d => negb (mentioned display_setup d))
                   available_displays) /\
  Permutation (addressed groups) (map name available_displays).
Proof.
  intros Hnd H. apply build_arg_groups_ok in H.
  destruct H as (Hk & _ & -> & _).
  assert (Haddr : addressed
                    (off_loop 0 available_displays
                       (fold_left assign_entry display_setup []))
                  = first_occurrences (setup_names display_setup)
                    ++ map name
                         (filter (fun d => negb (mentioned display_setup d))
                            available_displays)).
  { unfold addressed. rewrite built_values, map_app. f_equal.
    - unfold activation_groups. rewrite map_map.
      rewrite <- (map_id (first_occurrences (setup_names display_setup))) at 2.
      apply map_ext_in. intros n Hn. rewrite first_occurrences_In in Hn.
      now apply (group_of_output available_displays).
    - unfold off_groups. rewrite map_map. reflexivity. }
  split; [exact Haddr|]. rewrite Haddr.
  rewrite (filter_split_perm (mentioned display_setup) available_displays)
    at 2.
  rewrite map_app. apply Permutation_app_tail.
  apply NoDup_Permutation.
  - apply first_occurrences_NoDup.
  - now apply NoDup_map_filter.
  - intros n. rewrite first_occurrences_In. split.
    + intros Hn. unfold setup_names in Hn. apply in_map_iff in Hn.
      destruct Hn as (s & Hs & Hin).
      destruct (known_names _ _ _ Hk Hin) as (d & Hd & Ho).
      rewrite Ho in Hs. simpl in Hs. subst n.
      apply in_map_iff. exists d. split; [reflexivity|].
      apply filter_In. split; [exact Hd|].
      unfold mentioned. apply existsb_eqb_In. unfold setup_names.
      apply in_map_iff. exists s. rewrite Ho. now split.
    + intros Hn. apply in_map_iff in Hn. destruct Hn as (d & <- & Hd).
      apply filter_In in Hd. destruct Hd as [_ Hm].
      unfold mentioned in Hm. now apply existsb_eqb_In in Hm.
Qed.

Lemma command_addresses_each_display_once_witness :
  NoDup (map name Scenario.probed) /\
  build_arg_groups Scenario.probed Scenario.with_vga []
  = (Ok (inr Scenario.with_vga_groups),
     [stderr_line "warning: VGA-1 is not connected"]) /\
  Permutation (addressed Scenario.with_vga_groups) (map name Scenario.probed).
Proof.
  assert (Hnd : NoDup (map name Scenario.probed)).
  { simpl. repeat constructor; simpl; intuition discriminate. }
  split; [exact Hnd|]. split; [exact with_vga_built|].
  exact (proj2 (command_addresses_each_display_once _ _ _ _ _ Hnd
                  with_vga_built)).
Defined.

(** ** The group of an entry *)

Lemma all_known_app (available_displays : list OutputDevice)
    (l1 l2 : list OutputSpec) :
  all_known available_displays (l1 ++ l2)
  = all_known available_displays l1 && all_known available_displays l2.
Proof. unfold all_known. apply forallb_app. Qed.

Lemma dict_get_set_same (d : ArgGroups) (k : key) (v : list string) :
  Py.dict_get key_eqb (Py.dict_set key_eqb d k v) k = Some v.
Proof.
  assert (Hrefl : key_eqb k k = true) by now apply key_eqb_eq.
  induction d as [|[k' v'] r IH]; simpl.
  - now rewrite Hrefl.
  - destruct (key_eqb k k') eqn:E; simpl; rewrite E; [reflexivity | exact IH].
Qed.

(** Looking up a name in a built mapping. *)
Lemma built_get_name (available_displays : list OutputDevice)
    (display_setup : list OutputSpec) (n : string) :
  Py.dict_get key_eqb
    (off_loop 0 available_displays (fold_left assign_entry display_setup []))
    (KName n)
  = if existsb (String.eqb n) (setup_names display_setup)
    then Some (group_of display_setup n) else None.
Proof.
  rewrite built_items, dict_get_app, dict_get_named, dict_get_items_name.
  replace (existsb (String.eqb n)
             (first_occurrences (setup_names display_setup)))
    with (existsb (String.eqb n) (setup_names display_setup)).
  - now destruct (existsb (String.eqb n) (setup_names display_setup)).
  - apply eq_iff_eq_true. now rewrite !existsb_eqb_In, first_occurrences_In.
Qed.

(** The last entry for a name of an accepted setup. *)
Lemma last_entry_known (available_displays : list OutputDevice)
    (display_setup : list OutputSpec) (n : string) :
  all_known available_displays display_setup = true ->
  In n (setup_names display_setup) ->
  exists last,
    last_entry n display_setup = Some last /\
    In last display_setup /\ output last = Some n.
Proof.
  intros Hk Hin. unfold last_entry.
  destruct (find _ (rev display_setup)) as [last|] eqn:E.
  - exists last. apply find_some in E. destruct E as [Hl E].
    apply in_rev in Hl. split; [reflexivity|]. split; [exact Hl|].
    destruct (known_names _ _ _ Hk Hl) as (d & _ & Ho).
    rewrite Ho in E |- *. simpl in E. apply String.eqb_eq in E. now subst.
  - exfalso. unfold setup_names in Hin. apply in_map_iff in Hin.
    destruct Hin as (s & Hs & Hin).
    pose proof (find_none _ _ E s (proj1 (in_rev _ _) Hin)) as Hf.
    cbv beta in Hf. rewrite Hs, String.eqb_refl in Hf. discriminate.
Qed.

(** The group of a name is that of an entry that no later entry for the
    name follows. *)
Lemma group_of_last (available_displays : list OutputDevice)
    (before : list OutputSpec) (s : OutputSpec) (o : string)
    (after : list OutputSpec) :
  output s = Some o ->
  all_known available_displays after = true ->
  (forall s', In s' after -> output s' <> Some o) ->
  group_of (before ++ s :: after) o = entry_args s.
Proof.
  intros Ho. induction after as [|x after IH] using rev_ind; intros Hk Hno.
  - rewrite group_of_snoc, Ho. simpl. now rewrite String.eqb_refl.
  - rewrite all_known_app in Hk. apply andb_true_iff in Hk.
    destruct Hk as [Hk Hx].
    change (before ++ s :: after ++ [x]) with (before ++ (s :: after) ++ [x]).
    rewrite app_assoc, group_of_snoc.
    assert (Hin : In x [x]) by now left.
    destruct (known_names _ _ _ Hx Hin) as (d & _ & Hox).
    rewrite Hox. simpl.
    destruct (String.eqb_spec o (name d)) as [->|Hne].
    + exfalso. apply (Hno x); [apply in_or_app; right; now left | exact Hox].
    + apply IH; [exact Hk|].
      intros s' Hs'. apply Hno. apply in_or_app. now left.
Qed.

(** C5: an entry whose output is among the probed ones, after entries
    that all name probed displays, is processed by the setup loop, and
    right after it the mapping holds under the entry's output name the
    group --output <name> --pos <x>x<y>, with (0, 0) for a position that
    is not given, followed by --mode <w>x<h> when a mode is given and by
    --auto otherwise.  When the rest of the setup is accepted too, the
    builder returns a mapping in which this group is found under the
    name, unless a later entry names the same output, and in which every
    group found under a name has this form for an entry of the setup. *)
Theorem entry_group_shape (available_displays : list OutputDevice)
    (before : list OutputSpec) (s : OutputSpec) (after : list OutputSpec)
    (o : string) :
  output s = Some o ->
  all_known available_displays (before ++ [s]) = true ->
  let shape := fun (e : OutputSpec) (n : string) =>
    ["--output"; n; "--pos";
     (Py.str_of_int (fst (match pos e with Some p => p | None => (0, 0)%Z end))
      ++ "x"
      ++ Py.str_of_int (snd (match pos e with Some p => p | None => (0, 0)%Z end))
     )%string]
    ++ match mode e with
       | Some (w, h) =>
           ["--mode"; (Py.str_of_int w ++ "x" ++ Py.str_of_int h)%string]
       | None => ["--auto"]
       end in
  (forall arg_groups, exists mid,
     emits (setup_loop available_displays (before ++ [s]) arg_groups)
       (inr mid) (warnings available_displays (before ++ [s])) /\
     Py.dict_get key_eqb mid (KName o) = Some (shape s o)) /\
  (all_known available_displays after = true ->
   exists groups,
     emits (build_arg_groups available_displays (before ++ s :: after))
       (inr groups) (warnings available_displays (before ++ s :: after)) /\
     ((forall s', In s' after -> output s' <> Some o) ->
      Py.dict_get key_eqb groups (KName o) = Some (shape s o)) /\
     (forall n g,
        Py.dict_get key_eqb groups (KName n) = Some g ->
        exists e, In e (before ++ s :: after) /\ output e = Some n /\
                  g = shape e n)).
Proof.
  intros Ho Hk shape.
  assert (Hshape : forall e n, output e = Some n -> entry_args e = shape e n).
  { intros e n He. unfold entry_args, display_args, fmt_pair, shape.
    rewrite He. cbn [str_output]. now destruct (mode e) as [[w h]|]. }
  split.
  - intros arg_groups.
    exists (fold_left assign_entry (before ++ [s]) arg_groups).
    split; [now apply setup_loop_known|].
    rewrite fold_left_app. cbn [fold_left]. unfold assign_entry at 1.
    rewrite Ho. cbn [str_output].
    rewrite dict_get_set_same. f_equal. now apply Hshape.
  - intros Hafter.
    assert (Hall : all_known available_displays (before ++ s :: after) = true).
    { change (before ++ s :: after) with (before ++ [s] ++ after).
      rewrite app_assoc, all_known_app, Hk, Hafter. reflexivity. }
    destruct (build_arg_groups_cases available_displays (before ++ s :: after))
      as (_ & _ & Hok).
    eexists. split.
    { apply Hok; [exact Hall|]. now destruct before. }
    split.
    + intros Hno. rewrite built_get_name.
      assert (Hex : existsb (String.eqb o)
                      (setup_names (before ++ s :: after)) = true).
      { apply existsb_eqb_In. unfold setup_names. apply in_map_iff.
        exists s. rewrite Ho. split; [reflexivity|].
        apply in_or_app. right. now left. }
      rewrite Hex, (group_of_last available_displays _ _ _ _ Ho Hafter Hno).
      f_equal. now apply Hshape.
    + intros n g Hg. rewrite built_get_name in Hg.
      destruct (existsb (String.eqb n) (setup_names (before ++ s :: after)))
        eqn:Hex; [|discriminate].
      injection Hg as <-. apply existsb_eqb_In in Hex.
      destruct (last_entry_known _ _ _ Hall Hex) as (last & Hl & Hin & Hout).
      exists last. split; [exact Hin|]. split; [exact Hout|].
      unfold group_of. rewrite Hl. now apply Hshape.
Qed.

Lemma entry_group_shape_witness :
  output (mkOutputSpec (Some "VGA-1") (Some (1024, 768)%Z) (Some (1920, 0)%Z))
  = Some "VGA-1" /\
  all_known Scenario.probed
    ([mkOutputSpec (Some "eDP-1") None None]
     ++ [mkOutputSpec (Some "VGA-1") (Some (1024, 768)%Z) (Some (1920, 0)%Z)])
  = true /\
  (exists mid,
     emits (setup_loop Scenario.probed
              ([mkOutputSpec (Some "eDP-1") None None]
               ++ [mkOutputSpec (Some "VGA-1") (Some (1024, 768)%Z)
                     (Some (1920, 0)%Z)]) [])
       (inr mid)
       (warnings Scenario.probed
          ([mkOutputSpec (Some "eDP-1") None None]
           ++ [mkOutputSpec (Some "VGA-1") (Some (1024, 768)%Z)
                 (Some (1920, 0)%Z)])) /\
     Py.dict_get key_eqb mid (KName "VGA-1")
     = Some ["--output"; "VGA-1"; "--pos"; "1920x0"; "--mode"; "1024x768"]) /\
  exists groups,
    emits (build_arg_groups Scenario.probed Scenario.with_vga) (inr groups)
      (warnings Scenario.probed Scenario.with_vga) /\
    Py.dict_get key_eqb groups (KName "VGA-1")
    = Some ["--output"; "VGA-1"; "--pos"; "1920x0"; "--mode"; "1024x768"].
Proof.
  split; [reflexivity|]. split; [reflexivity|].
  destruct (entry_group_shape Scenario.probed
              [mkOutputSpec (Some "eDP-1") None None]
              (mkOutputSpec (Some "VGA-1") (Some (1024, 768)%Z)
                 (Some (1920, 0)%Z))
              [mkOutputSpec (Some "eDP-1") (Some (1920, 1080)%Z) None]
              "VGA-1" eq_refl eq_refl) as [Hstep Hbuilt].
  split; [exact (Hstep [])|].
  destruct (Hbuilt eq_refl) as (groups & Hemits & Hfound & _).
  exists groups. split; [exact Hemits|].
  apply Hfound. intros s' [<-|[]]. discriminate.
Defined.

(** ** The line at which reading the query output fails *)

Lemma header_lines_cons (l : string) (rest : list string) :
  header_lines (l :: rest)
  = if is_header starts_with_space l then l :: header_lines rest
    else header_lines rest.
Proof. reflexivity. Qed.

(** The first line that cannot be read, from any state of the loop. *)
Lemma parse_lines_first_error (lines : list string) :
  forall displays cur e,
    parse_lines lines displays cur = Raise e ->
    exists before line after,
      lines = before ++ line :: after /\
      is_screen line = false /\
      (exists res, parse_lines before displays cur = Ok res) /\
      match e with
      | IndexError =>
          (starts_with_space line = false /\ length (Py.split line) < 2) \/
          (starts_with_space line = true /\ Py.split line = [])
      | AttributeError =>
          starts_with_space line = true /\ Py.split line <> [] /\
          cur = None /\ header_lines before = []
      | TypeError =>
          starts_with_space line = true /\
          (cur <> None \/ header_lines before <> []) /\
          exists tok more,
            Py.split line = tok :: more /\
            length (Py.split_on "x" tok) <> 2
      | OSError => False
      end.
Proof.
  induction lines as [|l0 rest IH]; intros displays cur e H; [discriminate|].
  cbn [parse_lines] in H.
  destruct (Py.startswith l0 "Screen") eqn:Escreen.
  { destruct (screen_flags _ Escreen) as [Fh _].
    destruct (IH _ _ _ H) as (before & line & after & -> & Hs & Hok & Hcause).
    exists (l0 :: before), line, after.
    split; [reflexivity|]. split; [exact Hs|]. split.
    - cbn [parse_lines]. now rewrite Escreen.
    - rewrite header_lines_cons, Fh. exact Hcause. }
  destruct (Py.startswith l0 " ") eqn:Espace; cbn [negb] in H.
  - (* an indented line *)
    destruct (Py.split l0) as [|tok more] eqn:Esplit; cbn [nth_error] in H.
    { injection H as <-. exists [], l0, rest.
      split; [reflexivity|]. split; [exact Escreen|].
      split; [now eexists|]. right. now split. }
    destruct cur as [d|].
    2:{ injection H as <-. exists [], l0, rest.
        split; [reflexivity|]. split; [exact Escreen|].
        split; [now eexists|].
        split; [exact Espace|]. split; [rewrite Esplit; discriminate|].
        now split. }
    destruct (Py.split_on "x" tok) as [|w [|h [|x rest']]] eqn:Ex;
      try (injection H as <-; exists [], l0, rest;
           split; [reflexivity|]; split; [exact Escreen|];
           split; [now eexists|];
           split; [exact Espace|]; split; [left; discriminate|];
           exists tok, more; split; [exact Esplit|];
           rewrite Ex; simpl; lia).
    destruct (IH _ _ _ H) as (before & line & after & -> & Hs & Hok & Hcause).
    exists (l0 :: before), line, after.
    split; [reflexivity|]. split; [exact Hs|]. split.
    + cbn [parse_lines]. rewrite Escreen, Espace. cbn [negb].
      rewrite Esplit. cbn [nth_error]. now rewrite Ex.
    + destruct e; trivial.
      * destruct Hcause as (_ & _ & Hc & _). discriminate.
      * destruct Hcause as (Hl & _ & Htok).
        split; [exact Hl|]. split; [left; discriminate | exact Htok].
  - (* a header line *)
    destruct (header_flags _ Escreen Espace) as [Fh _].
    destruct (Py.split l0) as [|nm [|st more]] eqn:Esplit; cbn [nth_error] in H.
    { injection H as <-. exists [], l0, rest.
      split; [reflexivity|]. split; [exact Escreen|].
      split; [now eexists|]. left. split; [exact Espace|].
      rewrite Esplit. simpl. lia. }
    { injection H as <-. exists [], l0, rest.
      split; [reflexivity|]. split; [exact Escreen|].
      split; [now eexists|]. left. split; [exact Espace|].
      rewrite Esplit. simpl. lia. }
    destruct (IH _ _ _ H) as (before & line & after & -> & Hs & Hok & Hcause).
    exists (l0 :: before), line, after.
    split; [reflexivity|]. split; [exact Hs|]. split.
    + cbn [parse_lines]. rewrite Escreen, Espace. cbn [negb].
      rewrite Esplit. cbn [nth_error]. exact Hok.
    + rewrite header_lines_cons, Fh. destruct e; trivial.
      * destruct Hcause as (_ & _ & Hc & _). discriminate.
      * destruct Hcause as (Hl & _ & Htok).
        split; [exact Hl|]. split; [right; discriminate | exact Htok].
Qed.

(** X2: when reading the text of the query output raises, the lines
    before some line are read without error and that line, which does not
    begin with "Screen", is the cause.  IndexError: the line does not
    start with a space and has fewer than two tokens, or it starts with a
    space and has no token.  AttributeError: the line starts with a
    space, has a token, and no header line comes before it.  TypeError:
    the line starts with a space, a header line comes before it, and its
    first token does not split on 'x' into exactly two pieces.  Reading
    the text raises no other exception. *)
Theorem reading_errors (text : string) (e : exn) :
  parse_displays text = Raise e ->
  exists before line after,
    Py.splitlines text = before ++ line :: after /\
    is_screen line = false /\
    (exists res, parse_lines before [] None = Ok res) /\
    match e with
    | IndexError =>
        (starts_with_space line = false /\ length (Py.split line) < 2) \/
        (starts_with_space line = true /\ Py.split line = [])
    | AttributeError =>
        starts_with_space line = true /\ Py.split line <> [] /\
        header_lines before = []
    | TypeError =>
        starts_with_space line = true /\
        header_lines before <> [] /\
        exists tok more,
          Py.split line = tok :: more /\
          length (Py.split_on "x" tok) <> 2
    | OSError => False
    end.
Proof.
  intros H. apply parse_lines_first_error in H.
  destruct H as (before & line & after & Hl & Hs & Hok & Hcause).
  exists before, line, after.
  split; [exact Hl|]. split; [exact Hs|]. split; [exact Hok|].
  destruct e; trivial.
  - destruct Hcause as (A & B & _ & C). now repeat split.
  - destruct Hcause as (A & [B|B] & C); [now elim B|]. now repeat split.
Qed.

Lemma reading_errors_witness :
  parse_displays Scenario.indented_first_text = Raise AttributeError /\
  exists before line after,
    Py.splitlines Scenario.indented_first_text = before ++ line :: after /\
    is_screen line = false /\
    (exists res, parse_lines before [] None = Ok res) /\
    starts_with_space line = true /\ Py.split line <> [] /\
    header_lines before = [].
Proof.
  assert (H : parse_displays Scenario.indented_first_text
              = Raise AttributeError) by (vm_compute; reflexivity).
  split; [exact H|].
  exact (reading_errors _ _ H).
Defined.

(** ** Displays that are not connected *)

(** X5: when the builder returns a mapping, what it has printed is one
    warning for each entry whose first matching display is reported as
    not connected, in the order of the entries, and nothing else; and
    every entry, whether its display is connected or not, is configured:
    the mapping holds under the entry's output name the group of the last
    entry for that name. *)
Theorem builder_prints_warnings (available_displays : list OutputDevice)
    (display_setup : list OutputSpec) (t t' : trace) (groups : ArgGroups) :
  build_arg_groups available_displays display_setup t = (Ok (inr groups), t') ->
  t' = t ++ warnings available_displays display_setup /\
  forall s, In s display_setup ->
    exists o last,
      output s = Some o /\
      last_entry o display_setup = Some last /\
      In last display_setup /\
      output last = Some o /\
      Py.dict_get key_eqb groups (KName o) = Some (entry_args last).
Proof.
  intros H. apply build_arg_groups_ok in H.
  destruct H as (Hk & _ & -> & ->). split; [reflexivity|].
  intros s Hin.
  destruct (known_names _ _ _ Hk Hin) as (d & _ & Ho).
  assert (Hn : In (name d) (setup_names display_setup)).
  { unfold setup_names. apply in_map_iff. exists s. rewrite Ho. now split. }
  destruct (last_entry_known _ _ _ Hk Hn) as (last & Hl & Hlin & Hlo).
  exists (name d), last. repeat split; trivial.
  rewrite built_get_name.
  rewrite (proj2 (existsb_eqb_In _ _) Hn).
  unfold group_of. now rewrite Hl.
Qed.

Lemma builder_prints_warnings_witness :
  build_arg_groups Scenario.probed Scenario.with_vga []
  = (Ok (inr Scenario.with_vga_groups),
     [stderr_line "warning: VGA-1 is not connected"]) /\
  [stderr_line "warning: VGA-1 is not connected"]
  = [] ++ warnings Scenario.probed Scenario.with_vga /\
  exists o last,
    output (mkOutputSpec (Some "VGA-1") (Some (1024, 768)%Z)
              (Some (1920, 0)%Z)) = Some o /\
    last_entry o Scenario.with_vga = Some last /\
    In last Scenario.with_vga /\
    output last = Some o /\
    Py.dict_get key_eqb Scenario.with_vga_groups (KName o)
    = Some (entry_args last).
Proof.
  split; [exact with_vga_built|].
  destruct (builder_prints_warnings _ _ _ _ _ with_vga_built) as [Hw Hall].
  split; [exact Hw|].
  apply Hall. simpl. tauto.
Defined.

(** ** Two probed lists with the same names *)

Lemma build_names_only (a1 a2 : list OutputDevice)
    (display_setup : list OutputSpec) (t1 t2 t1' t2' : trace)
    (r1 r2 : Z + ArgGroups) :
  map name a1 = map name a2 ->
  build_arg_groups a1 display_setup t1 = (Ok r1, t1') ->
  build_arg_groups a2 display_setup t2 = (Ok r2, t2') ->
  match r1, r2 with
  | inl c1, inl c2 => c1 = c2
  | inr g1, inr g2 =>
      Py.dict_values g1 = Py.dict_values g2 /\
      forall n, Py.dict_get key_eqb g1 (KName n)
                = Py.dict_get key_eqb g2 (KName n)
  | _, _ => False
  end.
Proof.
  intros Hn H1 H2.
  destruct (build_arg_groups_cases a1 display_setup) as (A2 & A3 & Aok).
  destruct (build_arg_groups_cases a2 display_setup) as (B2 & B3 & Bok).
  rewrite <- (all_known_names _ _ display_setup Hn) in B2, Bok.
  destruct (all_known a1 display_setup) eqn:Hk.
  - destruct display_setup as [|s rest].
    + rewrite (A3 eq_refl) in H1. rewrite (B3 eq_refl) in H2.
      injection H1 as <- _. injection H2 as <- _. reflexivity.
    + rewrite Aok in H1; [|reflexivity|discriminate].
      rewrite Bok in H2; [|reflexivity|discriminate].
      injection H1 as <- _. injection H2 as <- _.
      rewrite (off_loop_names _ _ _ _ Hn). now split.
  - destruct (A2 eq_refl) as [m1 Hm1]. destruct (B2 eq_refl) as [m2 Hm2].
    rewrite Hm1 in H1. rewrite Hm2 in H2.
    injection H1 as <- _. injection H2 as <- _. reflexivity.
Qed.

(** X16: the builder reads only the names of the probed displays: for two
    probed lists with the same names in the same order, whatever the
    connection flags and the mode lists, it returns the same code, or two
    mappings with the same groups in the same order, hence the same
    command line, and with the same group under every output name. *)
Theorem builder_reads_names_only (a1 a2 : list OutputDevice)
    (display_setup : list OutputSpec) (t1 t2 t1' t2' : trace)
    (r1 r2 : Z + ArgGroups) :
  map name a1 = map name a2 ->
  build_arg_groups a1 display_setup t1 = (Ok r1, t1') ->
  build_arg_groups a2 display_setup t2 = (Ok r2, t2') ->
  match r1, r2 with
  | inl c1, inl c2 => c1 = c2
  | inr g1, inr g2 =>
      Py.dict_values g1 = Py.dict_values g2 /\
      (forall dry_run, xrandr_args g1 dry_run = xrandr_args g2 dry_run) /\
      (forall n, Py.dict_get key_eqb g1 (KName n)
                 = Py.dict_get key_eqb g2 (KName n))
  | _, _ => False
  end.
Proof.
  intros Hn H1 H2.
  pose proof (build_names_only _ _ _ _ _ _ _ _ _ Hn H1 H2) as H.
  destruct r1 as [c1|g1], r2 as [c2|g2]; trivial.
  destruct H as [Hv Hg]. split; [exact Hv|]. split; [|exact Hg].
  intros dry_run. unfold xrandr_args. now rewrite Hv.
Qed.

Lemma builder_reads_names_only_witness :
  map name Scenario.probed
  = map name [ mkOutputDevice "eDP-1" false [("1920", "1080")];
               mkOutputDevice "HDMI-1" false [];
               mkOutputDevice "VGA-1" true [] ] /\
  exists g2 t2',
    build_arg_groups
      [ mkOutputDevice "eDP-1" false [("1920", "1080")];
        mkOutputDevice "HDMI-1" false [];
        mkOutputDevice "VGA-1" true [] ]
      Scenario.with_vga []
    = (Ok (inr g2), t2') /\
    Py.dict_values Scenario.with_vga_groups = Py.dict_values g2 /\
    xrandr_args Scenario.with_vga_groups true = xrandr_args g2 true.
Proof.
  split; [reflexivity|].
  eexists _, _. split; [vm_compute; reflexivity|].
  destruct (builder_reads_names_only Scenario.probed
              [ mkOutputDevice "eDP-1" false [("1920", "1080")];
                mkOutputDevice "HDMI-1" false [];
                mkOutputDevice "VGA-1" true [] ]
              Scenario.with_vga [] []
              [stderr_line "warning: VGA-1 is not connected"]
              [stderr_line "warning: eDP-1 is not connected";
               stderr_line "warning: eDP-1 is not connected"]
              (inr Scenario.with_vga_groups)
              (inr Scenario.with_vga_groups)
              eq_refl with_vga_built) as (Hv & Hx & _).
  - vm_compute. reflexivity.
  - split; [exact Hv | exact (Hx true)].
Defined.
